(** * A shallow embedding of [data_analyzer.py]

    The program is a facade object ([DataAnalyzer]) around one pandas
    [DataFrame] and its display name, driven by a numeric menu.  The
    embedding keeps the structure of the source: one definition per method,
    explicit passing of the object state and of the output the method
    produces, and a result type for the exceptions a method lets escape.

    What belongs to pandas, numpy, matplotlib or the operating system is
    modelled by its documented behaviour:
    - a float64 entry is an exact rational, [NaN]/[None]/[NaT] is the one
      missing marker [None];
    - [self.df[col]] is a view on the frame, so [fillna(..., inplace=True)]
      on it writes through to [self.df];
    - file contents, the clock and the random generator are the fields of
      the class [Host]. *)

From Stdlib Require Import QArith Qround Qcanon Ascii String.
From stdpp Require Import base decidable option numbers list sets strings.

Set Warnings "-clear-no-such-hyp".

Open Scope string_scope.
Open Scope list_scope.
Open Scope nat_scope.

(** ** Generic list helpers *)

Section ListHelpers.
Context {A : Type}.

(** Insertion sort along a boolean order: the order in which pandas and
    numpy hand back sorted values. *)
Fixpoint insert_sorted (leb : A → A → bool) (x : A) (l : list A) : list A :=
  match l with
  | [] => [x]
  | y :: l' => if leb x y then x :: l else y :: insert_sorted leb x l'
  end.

Definition sort_by (leb : A → A → bool) (l : list A) : list A :=
  foldr (insert_sorted leb) [] l.

(** Boolean indexing [xs[mask]]. *)
Fixpoint mask_select (mask : list bool) (xs : list A) : list A :=
  match mask, xs with
  | b :: mask', x :: xs' =>
      if b then x :: mask_select mask' xs' else mask_select mask' xs'
  | _, _ => []
  end.

Context `{EqDecision A}.

Definition occurrences (x : A) (l : list A) : nat :=
  length (filter (λ y, y = x) l).

(** [duplicated(keep='first')]: an entry is flagged when an equal entry
    came before it. *)
Fixpoint duplicated_from (seen : list A) (l : list A) : list bool :=
  match l with
  | [] => []
  | x :: l' => bool_decide (x ∈ seen) :: duplicated_from (x :: seen) l'
  end.

(** The distinct entries in order of first appearance. *)
Definition unique (l : list A) : list A :=
  mask_select (negb <$> duplicated_from [] l) l.
End ListHelpers.

(** ** Tables *)

Inductive dtype :=
  | Int64 | Float64 | Bool | Object | Str | Category | Datetime64.

Inductive value :=
  | VInt (z : Z)
  | VFloat (q : Qc)
  | VBool (b : bool)
  | VStr (s : string)
  | VTime (ns : Z).

(** A cell is a value or the missing marker. *)
Abbreviation cell := (option value).
Abbreviation row := (list cell).

Record DataFrame := {
  columns : list (string * dtype);
  rows : list row
}.

Global Instance dtype_eq_dec : EqDecision dtype.
Proof. solve_decision. Defined.
Global Instance value_eq_dec : EqDecision value.
Proof. solve_decision. Defined.
Global Instance DataFrame_eq_dec : EqDecision DataFrame.
Proof. solve_decision. Defined.

(** [df.shape] *)
Definition nrows (d : DataFrame) : nat := length (rows d).
Definition ncols (d : DataFrame) : nat := length (columns d).

(** [df.empty]: some axis has length zero. *)
Definition empty (d : DataFrame) : bool :=
  bool_decide (nrows d = 0) || bool_decide (ncols d = 0).

(** [df[col]] for the column at position [j]. *)
Definition column (d : DataFrame) (j : nat) : list cell :=
  (λ r : row, default None (r !! j)) <$> rows d.

Definition isnull (c : cell) : bool := bool_decide (c = None).

(** [df[col].isnull().sum()] *)
Definition isnull_sum (d : DataFrame) (j : nat) : nat :=
  length (filter (λ c, c = None) (column d j)).

(** [df.isnull().sum().sum()] *)
Definition isnull_total (d : DataFrame) : nat :=
  sum_list (isnull_sum d <$> seq 0 (ncols d)).

(** [df[col].dropna()] *)
Definition dropna (cs : list cell) : list value := omap id cs.

(** [df.dtypes] at position [j]. *)
Definition dtype_of (d : DataFrame) (j : nat) : option dtype :=
  snd <$> columns d !! j.

(** [select_dtypes(include=[...]).columns], as column positions. *)
Definition select_dtypes (include : dtype → bool) (d : DataFrame) : list nat :=
  filter (λ j, from_option include false (dtype_of d j) = true)
         (seq 0 (ncols d)).

Definition is_number (t : dtype) : bool :=
  match t with Int64 | Float64 => true | _ => false end.
Definition is_object_str (t : dtype) : bool :=
  match t with Object | Str => true | _ => false end.
Definition is_object_category_str (t : dtype) : bool :=
  match t with Object | Category | Str => true | _ => false end.




(** *** Duplicates *)

(** [df.duplicated()] *)
Definition duplicated (d : DataFrame) : list bool :=
  if empty d then [] else duplicated_from [] (rows d).

(** [df.drop_duplicates()] *)
Definition drop_duplicates (d : DataFrame) : DataFrame :=
  if empty d then d
  else {| columns := columns d;
          rows := mask_select (negb <$> duplicated d) (rows d) |}.

Definition count_true (bs : list bool) : nat := length (filter (λ b, b = true) bs).
Arguments count_true : simpl never.

(** *** Median and mode *)

Definition as_number (v : value) : option Qc :=
  match v with
  | VInt z => Some (Q2Qc (inject_Z z))
  | VFloat q => Some q
  | _ => None
  end.

Definition Qc_leb (a b : Qc) : bool := bool_decide (a ≤ b)%Qc.

Definition two : Qc := Q2Qc 2.

(** [Series.median()]: missing entries are skipped; the middle entry of
    the sorted values, or the mean of the two middle ones; NaN ([None])
    when nothing is left. *)
Definition median (cs : list cell) : option Qc :=
  let s := sort_by Qc_leb (omap as_number (dropna cs)) in
  let n := length s in
  if Nat.odd n then s !! (n / 2)
  else match s !! (n / 2 - 1), s !! (n / 2) with
       | Some a, Some b => Some ((a + b) / two)%Qc
       | _, _ => None
       end.

Definition value_rank (v : value) : nat :=
  match v with
  | VBool _ => 0 | VInt _ => 1 | VFloat _ => 1 | VTime _ => 2 | VStr _ => 3
  end.

Definition value_leb (a b : value) : bool :=
  match a, b with
  | VStr s, VStr t => String.leb s t
  | VBool x, VBool y => implb x y
  | VTime x, VTime y => (x <=? y)%Z
  | _, _ =>
      match as_number a, as_number b with
      | Some x, Some y => Qc_leb x y
      | _, _ => (value_rank a <=? value_rank b)%nat
      end
  end.

(** [Series.mode()]: the most frequent non-missing values, sorted. *)
Definition mode (cs : list cell) : list value :=
  let vs := dropna cs in
  let top := max_list ((λ v, occurrences v vs) <$> vs) in
  sort_by value_leb (unique (filter (λ v, occurrences v vs = top) vs)).

(** *** Filling *)

Definition fill_cell (v : value) (c : cell) : cell :=
  match c with None => Some v | Some _ => c end.

(** [df[col].fillna(v, inplace=True)], writing through to the frame. *)
Definition fillna (d : DataFrame) (j : nat) (v : value) : DataFrame :=
  {| columns := columns d;
     rows := alter (fill_cell v) j <$> rows d |}.

(** [fillna] with the median: a NaN median leaves the column as it is. *)
Definition fillna_median (d : DataFrame) (j : nat) : DataFrame :=
  match median (column d j) with
  | Some m => fillna d j (VFloat m)
  | None => d
  end.

(** [df.head()] *)
Definition head_frame (d : DataFrame) : DataFrame :=
  {| columns := columns d; rows := take 5 (rows d) |}.

(** [df[cols]] for a list of column positions. *)
Definition select_columns (d : DataFrame) (js : list nat) : DataFrame :=
  {| columns := omap (λ j, columns d !! j) js;
     rows := (λ r : row, (λ j, default None (r !! j)) <$> js) <$> rows d |}.

Definition column_name (d : DataFrame) (j : nat) : string :=
  default "" (fst <$> columns d !! j).

(** [Series.value_counts()]: distinct non-missing values with their
    counts, most frequent first. *)
Definition value_counts (cs : list cell) : list (value * nat) :=
  let vs := dropna cs in
  sort_by (λ a b : value * nat, (b.2 <=? a.2)%nat)
          ((λ v, (v, occurrences v vs)) <$> unique vs).

(** ** Paths and input lines *)

Definition is_space (c : ascii) : bool :=
  let n := nat_of_ascii c in
  ((9 <=? n) && (n <=? 13) || (28 <=? n) && (n <=? 32))%nat.

Fixpoint lstrip (s : string) : string :=
  match s with
  | String c s' => if is_space c then lstrip s' else s
  | EmptyString => EmptyString
  end.

Fixpoint rstrip (s : string) : string :=
  match s with
  | String c s' =>
      match rstrip s' with
      | EmptyString => if is_space c then EmptyString else String c EmptyString
      | t => String c t
      end
  | EmptyString => EmptyString
  end.

(** [str.strip()] *)
Definition strip (s : string) : string := rstrip (lstrip s).

Definition lower_ascii (c : ascii) : ascii :=
  let n := nat_of_ascii c in
  if ((65 <=? n) && (n <=? 90))%nat then ascii_of_nat (n + 32) else c.

(** [str.lower()] *)
Fixpoint lower (s : string) : string :=
  match s with
  | String c s' => String (lower_ascii c) (lower s')
  | EmptyString => EmptyString
  end.

(** The components of a path, split at the separator. *)
Fixpoint path_parts (cur : string) (s : string) : list string :=
  match s with
  | String c s' =>
      if Ascii.eqb c "/" then cur :: path_parts EmptyString s'
      else path_parts (cur +:+ String c EmptyString) s'
  | EmptyString => [cur]
  end.

(** [Path(p).name]: the last component, empty and [.] components being
    dropped. *)
Definition path_name (p : string) : string :=
  default EmptyString
    (last (filter (λ c : string, c ≠ EmptyString ∧ c ≠ ".")
                  (path_parts EmptyString p))).

(** [s[s.rfind('.'):]] when [s] has a dot. *)
Fixpoint from_last_dot (s : string) : option string :=
  match s with
  | String c s' =>
      match from_last_dot s' with
      | Some t => Some t
      | None => if Ascii.eqb c "." then Some s else None
      end
  | EmptyString => None
  end.

(** [Path(p).suffix]: from the last dot of the name, unless that dot
    starts or ends the name. *)
Definition path_suffix (p : string) : string :=
  match path_name p with
  | String _ rest =>
      match from_last_dot rest with
      | Some (String _ EmptyString) | None => EmptyString
      | Some t => t
      end
  | EmptyString => EmptyString
  end.

(** ** Output and exceptions *)

Inductive exn :=
  | KeyError (key : nat)
  | ValueError (msg : string)
  | EOFError
  | OtherError (msg : string).

Record Figure := {
  suptitle : option string;
  (** [axes[0, 0]]: histogram of a column, 30 bins *)
  hist_panel : option (string * list value);
  (** [axes[0, 1]]: bars of the ten most frequent values *)
  bar_panel : option (string * list (value * nat));
  (** [axes[1, 0]]: heat map of the correlations of these columns *)
  heatmap_panel : option DataFrame;
  (** [axes[1, 1]]: scatter of two columns *)
  scatter_panel : option (string * string * list cell * list cell)
}.

(** What a [print] or [f.write] call puts out.  Text rendered by pandas
    ([to_string()]) is kept as the data it renders. *)
Inductive text :=
  | Lit (s : string)
  | Rule
  | Blank
  | Ornament
  | FileLine (name : option string)
  | ShapeLine (r c : nat)
  | RowsLine (r : nat)
  | ColumnsLine (c : nat)
  | DtypesText (ts : list (string * dtype))
  | FrameText (d : DataFrame)
  | DescribeText (d : DataFrame)
  | MissingText (counts : list (string * nat))
  | ColumnHeader (name : string)
  | CountsText (counts : list (value * nat))
  | UnsupportedType (ext : string)
  | LoadedLine (name : string)
  | LoadError (e : exn)
  | RemovedDuplicates (n : nat)
  | FilledMissing (n : nat)
  | RowsBeforeAfter (before after : nat)
  | SavedTo (what path : string)
  | TimestampLine (now : string).

Inductive event :=
  | Print (t : text)
  | Prompt (s : string)
  | WriteFile (path : string) (content : list text)
  | SaveFig (path : string) (fig : Figure).

(** ** The host: files, clock and random generator *)

Class Host (G : Type) := {
  (** [pd.read_csv], [pd.read_excel]: a table, or the exception raised *)
  read_csv : string → exn + DataFrame;
  read_excel : string → exn + DataFrame;
  (** [pd.Timestamp.now().strftime(...)] *)
  timestamp_now : string;
  (** [np.random.seed], [np.random.choice], [np.random.randint] on the
      global generator state *)
  random_seed : Z → G;
  random_choice : list string → nat → G → list string * G;
  random_randint : Z → Z → nat → G → list Z * G;
  random_choice_length xs n g : length (random_choice xs n g).1 = n;
  random_randint_length lo hi n g : length (random_randint lo hi n g).1 = n;
  random_randint_range lo hi n g x :
    (lo < hi)%Z → x ∈ (random_randint lo hi n g).1 → (lo ≤ x < hi)%Z
}.

(** ** The analyzer object and the process around it *)

Record DataAnalyzer := {
  df : option DataFrame;
  filename : option string
}.

Record world (G : Type) := {
  self : DataAnalyzer;
  np_random : G;
  output : list event
}.
Arguments self {G}.
Arguments np_random {G}.
Arguments output {G}.

Inductive outcome (G A : Type) :=
  | Return (a : A) (w : world G)
  | Raise (e : exn) (w : world G).
Arguments Return {G A}.
Arguments Raise {G A}.

Definition final {G A} (o : outcome G A) : world G :=
  match o with Return _ w => w | Raise _ w => w end.

Section Program.
Context {G : Type}.

Definition emit (e : event) (w : world G) : world G :=
  {| self := self w; np_random := np_random w; output := output w ++ [e] |}.

Definition print (t : text) (w : world G) : world G := emit (Print t) w.

Definition prints (ts : list text) (w : world G) : world G :=
  foldl (λ w t, print t w) w ts.

Definition set_df (d : DataFrame) (w : world G) : world G :=
  {| self := {| df := Some d; filename := filename (self w) |};
     np_random := np_random w; output := output w |}.

Definition set_filename (n : string) (w : world G) : world G :=
  {| self := {| df := df (self w); filename := Some n |};
     np_random := np_random w; output := output w |}.

Definition set_np_random (g : G) (w : world G) : world G :=
  {| self := self w; np_random := g; output := output w |}.

(** [DataAnalyzer.__init__] in a process whose generator state is [g]. *)
Definition init (g : G) : world G :=
  {| self := {| df := None; filename := None |};
     np_random := g; output := [] |}.
End Program.

(** ** The methods of [DataAnalyzer] *)

(** [pd.DataFrame({...})]: the columns of the dict side by side; arrays of
    different lengths are refused. *)
Definition DataFrame_of_dict (cols : list (string * dtype * list cell))
  : exn + DataFrame :=
  let n := from_option (λ c, length c.2) 0 (head cols) in
  if forallb (λ c, length c.2 =? n)%nat cols
  then inr {| columns := fst <$> cols;
              rows := (λ i, (λ c, default None (c.2 !! i)) <$> cols) <$> seq 0 n |}
  else inl (ValueError "All arrays must be of the same length").

(** Rounding half to even at a given number of decimals of ten. *)
Definition round_half_even (x : Q) : Z :=
  let f := Qfloor x in
  match (x - inject_Z f ?= 1 # 2)%Q with
  | Lt => f
  | Gt => (f + 1)%Z
  | Eq => if Z.even f then f else (f + 1)%Z
  end.

(** [x.round(2)] *)
Definition round2 (q : Qc) : Qc :=
  Q2Qc (inject_Z (round_half_even (q * 100)%Q) / 100).

(** [sales / units] on integers, as a float. *)
Definition true_divide (a b : Z) : Qc :=
  (Q2Qc (inject_Z a) / Q2Qc (inject_Z b))%Qc.

Definition nanoseconds_per_day : Z := 86400 * 1000000000.

(** [pd.date_range('2024-01-01', periods=n, freq='D')] *)
Definition date_range_2024 (n : nat) : list Z :=
  (λ i, (19723 + Z.of_nat i) * nanoseconds_per_day)%Z <$> seq 0 n.

(** The categorical loop of [clean_data]: [mode()[0]] raises [KeyError]
    on a column without any value, leaving the frame as filled so far. *)
Fixpoint fill_modes (js : list nat) (d : DataFrame) : option exn * DataFrame :=
  match js with
  | [] => (None, d)
  | j :: js' =>
      if (0 <? isnull_sum d j)%nat then
        match mode (column d j) with
        | v :: _ => fill_modes js' (fillna d j v)
        | [] => (Some (KeyError 0), d)
        end
      else fill_modes js' d
  end.

(** The numeric loop of [clean_data], and its body. *)
Definition fill_median_body (d : DataFrame) (j : nat) : DataFrame :=
  if (0 <? isnull_sum d j)%nat then fillna_median d j else d.

Definition fill_medians (js : list nat) (d : DataFrame) : DataFrame :=
  foldl fill_median_body d js.

Definition banner (title : string) : list text := [Rule; Lit title; Rule].

Definition menu_text : list text :=
  [Blank; Rule; Lit "DATA ANALYZER APP - Main Menu"; Rule;
   Lit "1. Load CSV/Excel file"; Lit "2. Use sample dataset";
   Lit "3. Show dataset overview"; Lit "4. Show statistics";
   Lit "5. Clean data"; Lit "6. Create visualizations";
   Lit "7. Export report"; Lit "8. Exit"; Rule].

Section Methods.
Context {G : Type} `{!Host G}.

Definition load_data (filepath : string) (w : world G) : outcome G bool :=
  let file_ext := lower (path_suffix filepath) in
  let parsed :=
    if String.eqb file_ext ".csv" then Some (read_csv filepath)
    else if String.eqb file_ext ".xlsx" || String.eqb file_ext ".xls"
         then Some (read_excel filepath)
         else None in
  match parsed with
  | None => Return false (print (UnsupportedType file_ext) w)
  | Some (inr d) =>
      let w := set_df d w in
      let w := set_filename (path_name filepath) w in
      Return true (prints [LoadedLine (path_name filepath);
                           ShapeLine (nrows d) (ncols d)] w)
  | Some (inl e) => Return false (print (LoadError e) w)
  end.

Definition create_sample_data (w : world G) : outcome G bool :=
  let g := random_seed 42 in
  let dates := date_range_2024 100 in
  let '(regions, g) := random_choice ["North"; "South"; "East"; "West"] 100 g in
  let '(products, g) :=
    random_choice ["Product A"; "Product B"; "Product C"] 100 g in
  let '(sales, g) := random_randint 1000 10000 100 g in
  let '(units, g) := random_randint 10 100 100 g in
  let w := set_np_random g w in
  match DataFrame_of_dict
          [("Date", Datetime64, (λ t, Some (VTime t)) <$> dates);
           ("Region", Object, (λ s, Some (VStr s)) <$> regions);
           ("Product", Object, (λ s, Some (VStr s)) <$> products);
           ("Sales", Int64, (λ z, Some (VInt z)) <$> sales);
           ("Units", Int64, (λ z, Some (VInt z)) <$> units);
           ("Price", Float64,
            zip_with (λ s u, Some (VFloat (round2 (true_divide s u))))
                     sales units)] with
  | inl e => Raise e w
  | inr d =>
      let w := set_df d w in
      let w := set_filename "sample_sales_data.csv" w in
      Return true (print (Lit "Sample dataset created (100 rows x 6 columns)") w)
  end.

Definition show_overview (w : world G) : outcome G unit :=
  match df (self w) with
  | None => Return tt (print (Lit "No data loaded. Please load a file first.") w)
  | Some d =>
      let w := prints (banner "DATASET OVERVIEW") w in
      let w := prints [FileLine (filename (self w));
                       ShapeLine (nrows d) (ncols d)] w in
      let w := prints [Lit "--- Column Information ---";
                       DtypesText (columns d)] w in
      let w := prints [Lit "--- First 5 Rows ---";
                       FrameText (head_frame d)] w in
      let w := print (Lit "--- Missing Values ---") w in
      let missing := (λ j, (column_name d j, isnull_sum d j)) <$> seq 0 (ncols d) in
      let w :=
        if (0 <? sum_list (snd <$> missing))%nat
        then print (MissingText (filter (λ m, 0 < m.2) missing)) w
        else print (Lit "No missing values found") w in
      Return tt (print Blank w)
  end.

Definition show_statistics (w : world G) : outcome G unit :=
  match df (self w) with
  | None => Return tt (print (Lit "No data loaded.") w)
  | Some d =>
      let w := prints (banner "STATISTICAL SUMMARY") w in
      let numeric_cols := select_dtypes is_number d in
      let w :=
        if (0 <? length numeric_cols)%nat
        then prints [Lit "--- Numeric Columns ---";
                     DescribeText (select_columns d numeric_cols)] w
        else w in
      let categorical_cols := select_dtypes is_object_category_str d in
      let w :=
        if (0 <? length categorical_cols)%nat
        then foldl (λ w col,
                      prints [ColumnHeader (column_name d col);
                              CountsText (take 5 (value_counts (column d col)))] w)
                   (print (Lit "--- Categorical Columns ---") w)
                   categorical_cols
        else w in
      Return tt (print Blank w)
  end.

Definition clean_data (w : world G) : outcome G unit :=
  match df (self w) with
  | None => Return tt (print (Lit "No data loaded.") w)
  | Some d =>
      let w := prints (banner "DATA CLEANING") w in
      let initial_rows := nrows d in
      let duplicates := count_true (duplicated d) in
      let w :=
        if (0 <? duplicates)%nat
        then print (RemovedDuplicates duplicates) (set_df (drop_duplicates d) w)
        else print (Lit "No duplicate rows found") w in
      let d := default d (df (self w)) in
      let missing := isnull_total d in
      let filled :=
        if (0 <? missing)%nat then
          let w := set_df (fill_medians (select_dtypes is_number d) d) w in
          let d := default d (df (self w)) in
          match fill_modes (select_dtypes is_object_str d) d with
          | (Some e, d) => Raise e (set_df d w)
          | (None, d) => Return tt (print (FilledMissing missing) (set_df d w))
          end
        else Return tt (print (Lit "No missing values found") w) in
      match filled with
      | Raise e w => Raise e w
      | Return _ w =>
          let final_rows := from_option nrows 0 (df (self w)) in
          Return tt (prints [RowsBeforeAfter initial_rows final_rows; Blank] w)
      end
  end.

Definition create_visualizations (w : world G) : outcome G unit :=
  match df (self w) with
  | None => Return tt (print (Lit "No data loaded.") w)
  | Some d =>
      let w := prints (banner "CREATING VISUALIZATIONS") w in
      let numeric_cols := select_dtypes is_number d in
      let categorical_cols := select_dtypes is_object_category_str d in
      let fig :=
        {| suptitle := filename (self w);
           hist_panel :=
             match numeric_cols with
             | c :: _ => Some (column_name d c, dropna (column d c))
             | [] => None
             end;
           bar_panel :=
             match categorical_cols with
             | c :: _ => Some (column_name d c, take 10 (value_counts (column d c)))
             | [] => None
             end;
           heatmap_panel :=
             if (2 <=? length numeric_cols)%nat
             then Some (select_columns d numeric_cols) else None;
           scatter_panel :=
             match numeric_cols with
             | c0 :: c1 :: _ =>
                 Some (column_name d c0, column_name d c1, column d c0, column d c1)
             | _ => None
             end |} in
      let output_file := "analysis_dashboard.png" in
      let w := emit (SaveFig output_file fig) w in
      Return tt (prints [SavedTo "Dashboard saved to" output_file; Blank] w)
  end.

Definition export_report (w : world G) : outcome G unit :=
  match df (self w) with
  | None => Return tt (print (Lit "No data loaded.") w)
  | Some d =>
      let report_file := "analysis_report.txt" in
      let written :=
        [Rule; Lit "DATA ANALYSIS REPORT"; Rule;
         FileLine (filename (self w)); TimestampLine timestamp_now;
         Lit "--- DATASET OVERVIEW ---"; RowsLine (nrows d); ColumnsLine (ncols d);
         Lit "--- COLUMN TYPES ---"; DtypesText (columns d);
         Lit "--- STATISTICAL SUMMARY ---"] in
      if (ncols d =? 0)%nat
      then Raise (ValueError "Cannot describe a DataFrame without columns")
                 (emit (WriteFile report_file written) w)
      else
        let written :=
          (written ++ [DescribeText d; Lit "--- TOP 5 ROWS ---";
                       FrameText (head_frame d)])%list in
        let w := emit (WriteFile report_file written) w in
        Return tt (print (SavedTo "Report exported to" report_file) w)
  end.

(** ** The menu loop *)

Definition print_menu (w : world G) : world G := prints menu_text w.

(** The menu and the prompt that open every turn of the loop. *)
Definition prompted (w : world G) : world G :=
  emit (Prompt "Enter your choice (1-8): ") (print_menu w).

(** A method call whose exception is not caught ends [main]; otherwise
    the loop goes on with [k]. *)
Definition and_then {A B} (o : outcome G A) (k : world G → outcome G B)
  : outcome G B :=
  match o with
  | Return _ w => k w
  | Raise e w => Raise e w
  end.

(** The branches of the loop body for a choice other than ['1'] and
    ['8'], which read a second line or leave the loop. *)
Definition dispatch (choice : string) (w : world G) : outcome G unit :=
  if String.eqb choice "2" then and_then (create_sample_data w) (Return tt)
  else if String.eqb choice "3" then show_overview w
  else if String.eqb choice "4" then show_statistics w
  else if String.eqb choice "5" then clean_data w
  else if String.eqb choice "6" then create_visualizations w
  else if String.eqb choice "7" then export_report w
  else Return tt (print (Lit "Invalid choice. Please enter a number between 1-8.") w).

(** [main], after the analyzer is built and the welcome is printed: the
    lines of standard input are consumed one [input()] at a time, and
    [input()] at the end of the input raises [EOFError]. *)
Fixpoint main_loop (stdin : list string) (w : world G) : outcome G unit :=
  let w := prompted w in
  match stdin with
  | [] => Raise EOFError w
  | line :: rest =>
      let choice := strip line in
      if String.eqb choice "1" then
        let w := emit (Prompt "Enter file path: ") w in
        match rest with
        | [] => Raise EOFError w
        | path :: rest' =>
            and_then (load_data (strip path) w) (main_loop rest')
        end
      else if String.eqb choice "8" then
        Return tt (print (Lit "Thank you for using Data Analyzer App! Goodbye!") w)
      else and_then (dispatch choice w) (main_loop rest)
  end.

Definition main (g : G) (stdin : list string) : outcome G unit :=
  main_loop stdin
    (prints [Ornament; Lit "Welcome to the Data Analyzer App!"; Ornament]
            (init g)).
End Methods.

(** The events a call added to the output. *)
Definition printed {G A} (w : world G) (o : outcome G A) : list event :=
  drop (length (output w)) (output (final o)).

(** The five operations that need a table. *)
Inductive operation := Overview | Statistics | Clean | Visualize | Export.

Definition run {G} `{!Host G} (op : operation) : world G → outcome G unit :=
  match op with
  | Overview => show_overview
  | Statistics => show_statistics
  | Clean => clean_data
  | Visualize => create_visualizations
  | Export => export_report
  end.

(** The ways [load_data] fails, with the line that reports the failure. *)
Inductive load_failure {G} `{!Host G} (path : string) : text → Prop :=
  | unsupported_format :
      lower (path_suffix path) ∉ [".csv"; ".xlsx"; ".xls"] →
      load_failure path (UnsupportedType (lower (path_suffix path)))
  | csv_load_error e :
      lower (path_suffix path) = ".csv" →
      read_csv path = inl e →
      load_failure path (LoadError e)
  | excel_load_error e :
      lower (path_suffix path) ∈ [".xlsx"; ".xls"] →
      read_excel path = inl e →
      load_failure path (LoadError e).

(** ** A host to run the program on examples

    One file, [sales.csv], holding the three-row table of regions and
    sales; a generator that steps through its range. *)

Definition scenario_table : DataFrame :=
  {| columns := [("Region", Object); ("Sales", Int64)];
     rows := [[Some (VStr "North"); Some (VInt 100)];
              [Some (VStr "South"); Some (VInt 200)];
              [Some (VStr "North"); Some (VInt 100)]] |}.

(** Two numeric columns: filling the one missing cell with the median
    makes the two rows equal. *)
Definition tie_table : DataFrame :=
  {| columns := [("A", Int64); ("B", Float64)];
     rows := [[Some (VInt 1); None];
              [Some (VInt 1); Some (VFloat (Q2Qc 5))]] |}.


(** Text and numbers with missing cells in both. *)
Definition gappy_table : DataFrame :=
  {| columns := [("City", Object); ("Temp", Float64)];
     rows := [[Some (VStr "Oslo"); Some (VFloat (Q2Qc 4))];
              [None; Some (VFloat (Q2Qc 7))];
              [Some (VStr "Oslo"); None];
              [Some (VStr "Bergen"); Some (VFloat (Q2Qc 6))]] |}.

(** A text column in which nothing was entered. *)
Definition blank_text_table : DataFrame :=
  {| columns := [("Id", Int64); ("Note", Object)];
     rows := [[Some (VInt 1); None]; [Some (VInt 2); None]] |}.

(** A table without a numeric column. *)
Definition text_table : DataFrame :=
  {| columns := [("Region", Object)];
     rows := [[Some (VStr "North")]; [Some (VStr "South")]] |}.

(** An analyzer holding the table [d], in a process that printed nothing
    yet. *)
Definition loaded (d : DataFrame) : world nat :=
  {| self := {| df := Some d; filename := Some "data.csv" |};
     np_random := 0; output := [] |}.

Definition stepping_choice (xs : list string) (n : nat) (g : nat)
  : list string * nat :=
  ((λ i, default "" (xs !! ((g + i) `mod` length xs))) <$> seq 0 n, g + n).

Definition stepping_randint (lo hi : Z) (n : nat) (g : nat) : list Z * nat :=
  ((λ i, lo + (Z.of_nat (g + 7 * i) `mod` (hi - lo)))%Z <$> seq 0 n, g + n).

#[export, refine] Instance example_host : Host nat := {|
  read_csv p :=
    if String.eqb p "sales.csv" then inr scenario_table
    else inl (OtherError "No such file or directory");
  read_excel p := inl (OtherError "No such file or directory");
  timestamp_now := "2024-01-01 00:00:00";
  random_seed z := Z.to_nat z;
  random_choice := stepping_choice;
  random_randint := stepping_randint
|}.
Proof.
  - intros xs n g. cbn. by rewrite length_fmap, length_seq.
  - intros lo hi n g. cbn. by rewrite length_fmap, length_seq.
  - intros lo hi n g x Hlt [i [-> _]]%list_elem_of_fmap.
    pose proof (Z.mod_pos_bound (Z.of_nat (g + 7 * i)) (hi - lo)). lia.
Defined.

(** ** What [clean_data] does to the table

    The table part of [clean_data], read off its body: duplicates are
    dropped, and when a missing value is left the numeric loop and then the
    categorical loop run; an exception leaves the table as filled so far. *)
Definition clean_frame (d : DataFrame) : option exn * DataFrame :=
  let d1 := drop_duplicates d in
  if (0 <? isnull_total d1)%nat then
    let d2 := fill_medians (select_dtypes is_number d1) d1 in
    fill_modes (select_dtypes is_object_str d2) d2
  else (None, d1).

(** The two report lines of [clean_data]. *)
Definition duplicates_line (d : DataFrame) : text :=
  let duplicates := count_true (duplicated d) in
  if (0 <? duplicates)%nat then RemovedDuplicates duplicates
  else Lit "No duplicate rows found".

Definition missing_line (d : DataFrame) : text :=
  let missing := isnull_total d in
  if (0 <? missing)%nat then FilledMissing missing
  else Lit "No missing values found".

(** A row after filling: every cell is as before unless it was missing. *)
Definition filled_from (r r' : row) : Prop :=
  Forall2 (λ c c' : cell, c = None ∨ c' = c) r r'.





(** ** States of the session and kinds of input *)

(** The two states of the session. *)
Inductive session_state := Idle | Loaded.

Definition state_of (a : DataAnalyzer) : session_state :=
  match df a with None => Idle | Some _ => Loaded end.

(** Table and source name are set or unset together. *)
Definition consistent (a : DataAnalyzer) : Prop :=
  df a = None ↔ filename a = None.







(** ** Kinds of runs of the menu *)



(** The first column, in table order, whose type is among [include]. *)
Definition first_selected (include : dtype → bool) (d : DataFrame) (j : nat)
  : Prop :=
  (∃ t, dtype_of d j = Some t ∧ include t = true)
  ∧ ∀ i t, i < j → dtype_of d i = Some t → include t = false.

(** * Properties *)

(** ** Output bookkeeping *)

Section OutputFacts.
Context {G : Type}.
Implicit Types (w : world G) (t : text) (ts : list text).

Lemma prints_cons t ts w : prints (t :: ts) w = prints ts (print t w).
Proof. reflexivity. Qed.

Lemma self_prints ts w : self (prints ts w) = self w.
Proof.
  revert w. induction ts as [|t ts IH]; intros w; [done|].
  by rewrite prints_cons, IH.
Qed.

Lemma np_random_prints ts w : np_random (prints ts w) = np_random w.
Proof.
  revert w. induction ts as [|t ts IH]; intros w; [done|].
  by rewrite prints_cons, IH.
Qed.

Lemma output_prints ts w : output (prints ts w) = output w ++ (Print <$> ts).
Proof.
  revert w. induction ts as [|t ts IH]; intros w.
  - simpl. by rewrite app_nil_r.
  - rewrite prints_cons, IH. simpl. by rewrite <- app_assoc.
Qed.

Lemma printed_spec {A} w (o : outcome G A) l :
  output (final o) = output w ++ l → printed w o = l.
Proof. unfold printed. intros ->. by rewrite drop_app_length. Qed.

(** A world is its three fields. *)
Lemma world_eq w1 w2 :
  self w1 = self w2 → np_random w1 = np_random w2 → output w1 = output w2 →
  w1 = w2.
Proof. destruct w1, w2; simpl; congruence. Qed.
End OutputFacts.

(** The lines a run printed, once the run is unfolded. *)
Ltac solve_printed :=
  unfold printed; cbn; rewrite <- ?app_assoc; cbn;
  rewrite ?drop_app_length; reflexivity.

(** Decide the tests of the code that mention no variable. *)
Ltac eval_closed_tests :=
  repeat match goal with
    | |- context [if ?b then _ else _] =>
        let v := eval vm_compute in b in
        first [constr_eq v true | constr_eq v false];
        change b with v; cbv iota
    end.

(** Bring the output of a run on a known table into the form
    [output w ++ lines] and compute the lines. *)
Ltac run_on_table :=
  cbn -[duplicated drop_duplicates isnull_total fill_medians fill_modes
        select_dtypes isnull_sum count_true sum_list Nat.ltb Nat.leb];
  eval_closed_tests;
  cbn -[duplicated drop_duplicates isnull_total fill_medians fill_modes
        select_dtypes isnull_sum count_true sum_list Nat.ltb Nat.leb];
  rewrite <- ?app_assoc; try (f_equal; vm_compute; reflexivity).

Section SessionFacts.
Context {G : Type} `{!Host G}.
Implicit Types (w : world G) (d : DataFrame).

(** C4. An operation called while no table is loaded prints one
    diagnostic line and does nothing else: no file is written, no figure
    is saved, the analyzer is as before. *)
Theorem no_table_no_effect (op : operation) w :
  df (self w) = None →
  ∃ msg, run op w = Return tt (print (Lit msg) w)
         ∧ self (print (Lit msg) w) = self w
         ∧ printed w (run op w) = [Print (Lit msg)].
Proof.
  intros Hnone.
  destruct op; simpl;
    [unfold show_overview | unfold show_statistics | unfold clean_data
    | unfold create_visualizations | unfold export_report];
    rewrite Hnone; eexists; (split; [reflexivity|]); split; try reflexivity;
    by apply printed_spec.
Qed.

(** C3. A load that fails, through the extension or through the parser,
    reports the failure, returns [False] and leaves table and source name
    as they were. *)
Theorem load_failure_keeps_session (path : string) (report : text) w :
  load_failure path report →
  load_data path w = Return false (print report w)
  ∧ df (self (print report w)) = df (self w)
  ∧ filename (self (print report w)) = filename (self w).
Proof.
  intros Hfail. split; [|done].
  unfold load_data. destruct Hfail as [Hext | e Hext Hread | e Hext Hread].
  - rewrite !not_elem_of_cons in Hext. destruct Hext as (H1 & H2 & H3 & _).
    apply String.eqb_neq in H1, H2, H3. by rewrite H1, H2, H3.
  - rewrite Hext. simpl. by rewrite Hread.
  - rewrite !elem_of_cons in Hext. destruct Hext as [-> | [-> | []%elem_of_nil]];
      simpl; by rewrite Hread.
Qed.

(** What [load_data] and [create_sample_data] do when they succeed:
    table and source name are both replaced. *)
Lemma load_data_true path w w' :
  load_data path w = Return true w' →
  is_Some (df (self w')) ∧ filename (self w') = Some (path_name path).
Proof.
  unfold load_data.
  destruct (if String.eqb _ ".csv" then _ else _) as [[e|d]|];
    intros [= <-]; rewrite ?self_prints; simpl; eauto.
Qed.

(** C8. [create_visualizations] on a loaded table always saves the
    dashboard; a panel is drawn only when its columns exist, so a table
    without numeric columns gets panels 1, 3 and 4 blank. *)
Theorem visualize_blank_panels w d :
  df (self w) = Some d →
  ∃ fig w',
    create_visualizations w = Return tt w'
    ∧ printed w (create_visualizations w)
      = (Print <$> banner "CREATING VISUALIZATIONS")
        ++ [SaveFig "analysis_dashboard.png" fig;
            Print (SavedTo "Dashboard saved to" "analysis_dashboard.png");
            Print Blank]
    ∧ (select_dtypes is_number d = [] →
       hist_panel fig = None ∧ heatmap_panel fig = None
       ∧ scatter_panel fig = None)
    ∧ (length (select_dtypes is_number d) < 2 →
       heatmap_panel fig = None ∧ scatter_panel fig = None)
    ∧ (select_dtypes is_object_category_str d = [] → bar_panel fig = None).
Proof.
  intros Hd. unfold create_visualizations. rewrite Hd.
  eexists _, _. split; [reflexivity|]. split.
  { apply printed_spec. cbn -[select_dtypes]. by rewrite <- ?app_assoc. }
  cbn -[select_dtypes]. split; [|split].
  - by intros ->.
  - intros Hlen. destruct (select_dtypes is_number d) as [|c0 [|c1 cs]];
      simpl in *; try done. lia.
  - by intros ->.
Qed.

(** C6. The three-row table of regions and sales: the overview reports
    3 rows, 2 columns and no missing value; cleaning removes one
    duplicate row and leaves two rows. *)
Theorem scenario_overview_and_clean w :
  df (self w) = Some scenario_table →
  printed w (show_overview w)
  = [Print Rule; Print (Lit "DATASET OVERVIEW"); Print Rule;
     Print (FileLine (filename (self w))); Print (ShapeLine 3 2);
     Print (Lit "--- Column Information ---");
     Print (DtypesText [("Region", Object); ("Sales", Int64)]);
     Print (Lit "--- First 5 Rows ---"); Print (FrameText scenario_table);
     Print (Lit "--- Missing Values ---");
     Print (Lit "No missing values found"); Print Blank]
  ∧ isnull_total scenario_table = 0
  ∧ printed w (clean_data w)
    = [Print Rule; Print (Lit "DATA CLEANING"); Print Rule;
       Print (RemovedDuplicates 1); Print (Lit "No missing values found");
       Print (RowsBeforeAfter 3 2); Print Blank]
  ∧ (nrows <$> df (self (final (clean_data w)))) = Some 2.
Proof.
  intros Hd. split; [|split; [done|split]].
  - apply printed_spec. unfold show_overview. rewrite Hd. run_on_table.
  - apply printed_spec. unfold clean_data. rewrite Hd. run_on_table.
  - unfold clean_data. rewrite Hd. run_on_table.
Qed.
End SessionFacts.

(** ** The menu loop *)

Section MenuFacts.
Context {G : Type} `{!Host G}.
Implicit Types (w : world G) (d : DataFrame).

Lemma self_prompted w : self (prompted w) = self w.
Proof. unfold prompted, print_menu, emit. cbn [self]. apply self_prints. Qed.




End MenuFacts.

(** ** Duplicate removal *)

Section DuplicateFacts.
Context {A : Type} `{EqDecision A}.
Implicit Types (l seen : list A) (mask : list bool).

Lemma length_duplicated_from seen l : length (duplicated_from seen l) = length l.
Proof. revert seen. induction l as [|x l IH]; intros seen; simpl; [done|]. by rewrite IH. Qed.

Lemma mask_select_sublist mask l : mask_select mask l `sublist_of` l.
Proof.
  revert mask. induction l as [|x l IH]; intros [|[] mask]; simpl;
    try apply sublist_nil_l.
  - by apply sublist_skip.
  - by apply sublist_cons.
Qed.

Lemma count_true_cons b mask :
  count_true (b :: mask) = (if b then 1 else 0) + count_true mask.
Proof. unfold count_true. by destruct b. Qed.

(** Without a flagged entry the selection keeps everything. *)
Lemma mask_select_all mask l :
  length mask = length l → count_true mask = 0 →
  mask_select (negb <$> mask) l = l.
Proof.
  revert mask. induction l as [|x l IH]; intros [|b mask]; cbn; try done.
  rewrite count_true_cons. intros [= Hlen] Hcount.
  destruct b; cbn in *; [lia|]. by rewrite IH.
Qed.

(** The selection and the flags account for every entry. *)
Lemma length_mask_select mask l :
  length mask = length l →
  length (mask_select (negb <$> mask) l) + count_true mask = length l.
Proof.
  revert mask. induction l as [|x l IH]; intros [|b mask]; cbn; try done.
  rewrite count_true_cons. intros [= Hlen]. specialize (IH _ Hlen).
  destruct b; cbn; lia.
Qed.

(** What is kept is not in [seen], has no repetition, and covers the
    list: the result of dropping duplicates. *)
Lemma elem_of_keep_first seen l x :
  x ∈ mask_select (negb <$> duplicated_from seen l) l ↔ x ∈ l ∧ x ∉ seen.
Proof.
  revert seen. induction l as [|y l IH]; intros seen; simpl.
  - set_solver.
  - case_bool_decide as Hy; simpl.
    + rewrite IH. set_solver.
    + rewrite elem_of_cons, IH. destruct (decide (x = y)); set_solver.
Qed.

Lemma NoDup_keep_first seen l :
  NoDup (mask_select (negb <$> duplicated_from seen l) l).
Proof.
  revert seen. induction l as [|y l IH]; intros seen; simpl.
  - constructor.
  - case_bool_decide as Hy; simpl; [apply IH|].
    constructor; [|apply IH]. rewrite elem_of_keep_first. set_solver.
Qed.

(** On a list without repetition nothing is flagged. *)
Lemma duplicated_from_NoDup seen l :
  NoDup l → (∀ x, x ∈ l → x ∉ seen) → count_true (duplicated_from seen l) = 0.
Proof.
  revert seen. induction l as [|y l IH]; intros seen Hnd Hseen; [done|].
  simpl. rewrite count_true_cons. apply NoDup_cons in Hnd as [Hy Hnd].
  rewrite bool_decide_eq_false_2 by set_solver. simpl.
  apply IH; [done|]. intros x Hx. rewrite not_elem_of_cons. split.
  - intros ->. done.
  - apply Hseen. set_solver.
Qed.

Lemma unique_idemp l : unique (unique l) = unique l.
Proof.
  unfold unique at 1. apply mask_select_all.
  - apply length_duplicated_from.
  - apply duplicated_from_NoDup; [apply NoDup_keep_first|set_solver].
Qed.
End DuplicateFacts.

(** ** The table part of [clean_data] *)

Section FrameFacts.
Implicit Types (d : DataFrame) (j : nat) (js : list nat) (v : value).

Lemma frame_eta d : {| columns := columns d; rows := rows d |} = d.
Proof. by destruct d. Qed.

Lemma columns_drop_duplicates d : columns (drop_duplicates d) = columns d.
Proof. unfold drop_duplicates. by destruct (empty d). Qed.

Lemma length_duplicated d : empty d = false → length (duplicated d) = nrows d.
Proof. unfold duplicated. intros ->. apply length_duplicated_from. Qed.

Lemma empty_no_duplicates d : empty d = true → count_true (duplicated d) = 0.
Proof. unfold duplicated. by intros ->. Qed.

Lemma drop_duplicates_none d : count_true (duplicated d) = 0 → drop_duplicates d = d.
Proof.
  intros Hcount. unfold drop_duplicates. destruct (empty d) eqn:He; [done|].
  rewrite mask_select_all; [apply frame_eta| |done].
  by apply length_duplicated.
Qed.

Lemma rows_drop_duplicates d : rows (drop_duplicates d) `sublist_of` rows d.
Proof.
  unfold drop_duplicates. destruct (empty d); [done|]. apply mask_select_sublist.
Qed.

(** The rows removed are the rows flagged. *)
Lemma nrows_drop_duplicates d :
  nrows (drop_duplicates d) + count_true (duplicated d) = nrows d.
Proof.
  unfold drop_duplicates. destruct (empty d) eqn:He.
  - rewrite empty_no_duplicates by done. lia.
  - apply length_mask_select. by apply length_duplicated.
Qed.

Lemma columns_fillna d j v : columns (fillna d j v) = columns d.
Proof. done. Qed.

Lemma nrows_fillna d j v : nrows (fillna d j v) = nrows d.
Proof. unfold nrows, fillna. simpl. by rewrite length_fmap. Qed.

Lemma columns_fillna_median d j : columns (fillna_median d j) = columns d.
Proof. unfold fillna_median. by destruct (median _). Qed.

Lemma nrows_fillna_median d j : nrows (fillna_median d j) = nrows d.
Proof. unfold fillna_median. destruct (median _); [apply nrows_fillna|done]. Qed.

Lemma columns_fill_medians js d : columns (fill_medians js d) = columns d.
Proof.
  revert d. induction js as [|j js IH]; intros d; [done|].
  unfold fill_medians in *. simpl. rewrite IH. unfold fill_median_body.
  destruct (0 <? isnull_sum d j)%nat; [apply columns_fillna_median|done].
Qed.

Lemma nrows_fill_medians js d : nrows (fill_medians js d) = nrows d.
Proof.
  revert d. induction js as [|j js IH]; intros d; [done|].
  unfold fill_medians in *. simpl. rewrite IH. unfold fill_median_body.
  destruct (0 <? isnull_sum d j)%nat; [apply nrows_fillna_median|done].
Qed.

Lemma columns_fill_modes js d : columns (fill_modes js d).2 = columns d.
Proof.
  revert d. induction js as [|j js IH]; intros d; [done|]. simpl.
  destruct (0 <? isnull_sum d j)%nat; [|apply IH].
  destruct (mode _); [done|]. by rewrite IH.
Qed.

Lemma nrows_fill_modes js d : nrows (fill_modes js d).2 = nrows d.
Proof.
  revert d. induction js as [|j js IH]; intros d; [done|]. simpl.
  destruct (0 <? isnull_sum d j)%nat; [|apply IH].
  destruct (mode _); [done|]. by rewrite IH, nrows_fillna.
Qed.

Lemma columns_clean_frame d : columns (clean_frame d).2 = columns d.
Proof.
  unfold clean_frame. destruct (0 <? isnull_total _)%nat; simpl.
  - by rewrite columns_fill_modes, columns_fill_medians, columns_drop_duplicates.
  - apply columns_drop_duplicates.
Qed.

Lemma nrows_clean_frame d : nrows (clean_frame d).2 = nrows (drop_duplicates d).
Proof.
  unfold clean_frame. destruct (0 <? isnull_total _)%nat; simpl; [|done].
  by rewrite nrows_fill_modes, nrows_fill_medians.
Qed.
End FrameFacts.

Section CleanFacts.
Context {G : Type} `{!Host G}.
Implicit Types (w : world G) (d : DataFrame).

(** [clean_data] on a loaded table, in terms of [clean_frame]: the new
    table, the untouched source name, and the lines printed. *)
Lemma clean_data_loaded w d :
  df (self w) = Some d →
  self (final (clean_data w))
  = {| df := Some (clean_frame d).2; filename := filename (self w) |}
  ∧ np_random (final (clean_data w)) = np_random w
  ∧ match (clean_frame d).1 with
    | None =>
        clean_data w = Return tt (final (clean_data w))
        ∧ printed w (clean_data w)
          = Print <$> banner "DATA CLEANING"
              ++ [duplicates_line d; missing_line (drop_duplicates d);
                  RowsBeforeAfter (nrows d) (nrows (clean_frame d).2); Blank]
    | Some e =>
        clean_data w = Raise e (final (clean_data w))
        ∧ printed w (clean_data w)
          = Print <$> banner "DATA CLEANING" ++ [duplicates_line d]
    end.
Proof.
  intros Hd. destruct w as [[d0 f] g out]. simpl in Hd. subst d0.
  unfold clean_data, clean_frame, duplicates_line, missing_line.
  cbn [self df].
  destruct (0 <? count_true (duplicated d))%nat eqn:Hdup.
  - cbn [self df set_df print emit prints foldl banner default id from_option].
    destruct (0 <? isnull_total (drop_duplicates d))%nat eqn:Hmiss.
    + cbn [self df set_df print emit prints foldl banner default id from_option].
      destruct (fill_modes _ _) as [[e|] d3]; cbn;
        (repeat split); solve_printed.
    + cbn. repeat split. solve_printed.
  - apply Nat.ltb_ge in Hdup. assert (count_true (duplicated d) = 0) as H0 by lia.
    rewrite (drop_duplicates_none d H0).
    cbn [self df set_df print emit prints foldl banner default id from_option].
    destruct (0 <? isnull_total d)%nat eqn:Hmiss.
    + cbn [self df set_df print emit prints foldl banner default id from_option].
      destruct (fill_modes _ _) as [[e|] d3]; cbn;
        (repeat split); solve_printed.
    + cbn. repeat split. solve_printed.
Qed.
End CleanFacts.

(** ** Operations that only read the table *)

Section ReadOnlyFacts.
Context {G : Type} `{!Host G}.
Implicit Types (w : world G) (d : DataFrame).

Lemma self_foldl_prints {A} (f : A → list text) (xs : list A) w :
  self (foldl (λ w x, prints (f x) w) w xs) = self w.
Proof.
  revert w. induction xs as [|x xs IH]; intros w; [done|].
  simpl. by rewrite IH, self_prints.
Qed.

Lemma show_overview_self w : self (final (show_overview w)) = self w.
Proof.
  unfold show_overview. destruct (df (self w)); [|done].
  cbn [final]. destruct (0 <? _)%nat; cbn [print emit self];
    by rewrite !self_prints.
Qed.

Lemma show_statistics_self w : self (final (show_statistics w)) = self w.
Proof.
  unfold show_statistics. destruct (df (self w)) as [d|]; [|done].
  cbn [final print emit self].
  destruct (0 <? length (select_dtypes is_object_category_str d))%nat;
    destruct (0 <? length (select_dtypes is_number d))%nat;
    rewrite ?self_foldl_prints; cbn [print emit self];
    by rewrite ?self_prints.
Qed.

Lemma create_visualizations_self w :
  self (final (create_visualizations w)) = self w.
Proof.
  unfold create_visualizations. destruct (df (self w)); [|done].
  cbn [final]. rewrite self_prints. cbn [emit self]. by rewrite self_prints.
Qed.

Lemma export_report_self w : self (final (export_report w)) = self w.
Proof.
  unfold export_report. destruct (df (self w)) as [d|]; [|done].
  by destruct (ncols d =? 0)%nat.
Qed.

Lemma clean_data_state w :
  state_of (self (final (clean_data w))) = state_of (self w)
  ∧ filename (self (final (clean_data w))) = filename (self w).
Proof.
  destruct (df (self w)) as [d|] eqn:Hd.
  - destruct (clean_data_loaded w d Hd) as (-> & _).
    unfold state_of. by rewrite Hd.
  - unfold clean_data. by rewrite Hd.
Qed.

(** Every operation leaves the state of the session and the source
    name as they are. *)
Lemma run_state (op : operation) w :
  state_of (self (final (run op w))) = state_of (self w)
  ∧ filename (self (final (run op w))) = filename (self w).
Proof.
  destruct op; simpl.
  - by rewrite show_overview_self.
  - by rewrite show_statistics_self.
  - apply clean_data_state.
  - by rewrite create_visualizations_self.
  - by rewrite export_report_self.
Qed.

Lemma create_sample_data_self w :
  self (final (create_sample_data w)) = self w
  ∨ ∃ d, self (final (create_sample_data w))
         = {| df := Some d; filename := Some "sample_sales_data.csv" |}.
Proof.
  unfold create_sample_data.
  destruct (random_choice _ _ _) as [regions g1].
  destruct (random_choice _ _ _) as [products g2].
  destruct (random_randint _ _ _ _) as [sales g3].
  destruct (random_randint _ _ _ _) as [units g4].
  destruct (DataFrame_of_dict _) as [e|d]; [by left|right; by exists d].
Qed.

Lemma load_data_self path w :
  self (final (load_data path w)) = self w
  ∨ ∃ d, self (final (load_data path w))
         = {| df := Some d; filename := Some (path_name path) |}.
Proof.
  unfold load_data.
  destruct (if String.eqb _ ".csv" then _ else _) as [[e|d]|];
    [by left|right; exists d|by left].
  cbn [final]. by rewrite self_prints.
Qed.



(** ** The session invariant *)

Lemma consistent_init (g : G) : consistent (self (init g)).
Proof. done. Qed.

Lemma consistent_load_data path w :
  consistent (self w) → consistent (self (final (load_data path w))).
Proof.
  intros Hw. destruct (load_data_self path w) as [-> | [d ->]]; [done|].
  unfold consistent. simpl. split; discriminate.
Qed.

Lemma consistent_create_sample_data w :
  consistent (self w) → consistent (self (final (create_sample_data w))).
Proof.
  intros Hw. destruct (create_sample_data_self w) as [-> | [d ->]]; [done|].
  unfold consistent. simpl. split; discriminate.
Qed.

Lemma consistent_run (op : operation) w :
  consistent (self w) → consistent (self (final (run op w))).
Proof.
  unfold consistent. destruct (run_state op w) as [Hstate ->].
  unfold state_of in Hstate.
  destruct (df (self (final (run op w)))), (df (self w)); try done.
  intros Hw. split; [done|]. intros Hf. by apply Hw in Hf.
Qed.

Lemma consistent_dispatch (c : string) w :
  consistent (self w) → consistent (self (final (dispatch c w))).
Proof.
  intros Hw. unfold dispatch.
  repeat (destruct (String.eqb c _);
          [first [by apply (consistent_run Overview)
                 | by apply (consistent_run Statistics)
                 | by apply (consistent_run Clean)
                 | by apply (consistent_run Visualize)
                 | by apply (consistent_run Export)
                 | idtac]|]); [|done].
  pose proof (consistent_create_sample_data w Hw) as Hs.
  by destruct (create_sample_data w).
Qed.

Lemma consistent_main_loop (stdin : list string) w :
  consistent (self w) → consistent (self (final (main_loop stdin w))).
Proof.
  remember (length stdin) as n eqn:Hn. revert stdin w Hn.
  induction (lt_wf n) as [n _ IH]. intros stdin w -> Hw.
  destruct stdin as [|line rest]; cbn [main_loop].
  { cbn [final]. by rewrite self_prompted. }
  destruct (String.eqb (strip line) "1").
  { destruct rest as [|path rest'];
      [cbn [final emit self]; by rewrite self_prompted|].
    pose proof (consistent_load_data (strip path)
                  (emit (Prompt "Enter file path: ") (prompted w))) as Hl.
    cbn [emit self] in Hl. rewrite self_prompted in Hl. specialize (Hl Hw).
    destruct (load_data _ _) as [b w'|e w']; cbn [and_then final] in *; [|done].
    eapply (IH (length rest')); [simpl; lia|done|done]. }
  destruct (String.eqb (strip line) "8").
  { cbn [final print emit self]. by rewrite self_prompted. }
  pose proof (consistent_dispatch (strip line) (prompted w)) as Hd.
  rewrite self_prompted in Hd. specialize (Hd Hw).
  destruct (dispatch _ _) as [b w'|e w']; cbn [and_then final] in *; [|done].
  eapply (IH (length rest)); [simpl; lia|done|done].
Qed.

(** C9. Table and source name are set or unset together: at the start,
    after every operation, and so at the end of every run of the menu
    loop; a load or a sample generation that succeeds sets both. *)
Theorem session_consistent (g : G) (stdin : list string) :
  consistent (self (final (main g stdin)))
  ∧ (∀ (op : operation) w,
       consistent (self w) → consistent (self (final (run op w))))
  ∧ (∀ path w w',
       load_data path w = Return true w' →
       is_Some (df (self w')) ∧ is_Some (filename (self w')))
  ∧ (∀ w w',
       create_sample_data w = Return true w' →
       is_Some (df (self w')) ∧ is_Some (filename (self w'))).
Proof.
  split; [|split; [|split]].
  - unfold main. apply consistent_main_loop. by rewrite self_prints.
  - apply consistent_run.
  - intros path w w' [Hd Hf]%load_data_true. rewrite Hf. eauto.
  - intros w w'. unfold create_sample_data.
    destruct (random_choice _ _ _) as [regions g1].
    destruct (random_choice _ _ _) as [products g2].
    destruct (random_randint _ _ _ _) as [sales g3].
    destruct (random_randint _ _ _ _) as [units g4].
    destruct (DataFrame_of_dict _) as [e|d]; [done|].
    intros [= <-]. cbn. eauto.
Qed.
End ReadOnlyFacts.

(** ** The sample table *)

Section SampleFacts.
Context {G : Type} `{!Host G}.
Implicit Types (w : world G) (d : DataFrame).

Lemma DataFrame_of_dict_rows cols n :
  Forall (λ c, length c.2 = n) cols →
  head cols ≠ None →
  DataFrame_of_dict cols
  = inr {| columns := fst <$> cols;
           rows := (λ i, (λ c, default None (c.2 !! i)) <$> cols) <$> seq 0 n |}.
Proof.
  intros Hlen Hhead. unfold DataFrame_of_dict.
  destruct cols as [|c cols]; [done|]. simpl.
  apply Forall_cons in Hlen as [Hc Hlen]. rewrite Hc.
  rewrite Nat.eqb_refl. simpl.
  assert (forallb (λ c0, length c0.2 =? n)%nat cols = true) as ->; [|done].
  apply forallb_forall. intros c' Hin. apply Nat.eqb_eq.
  rewrite Forall_forall in Hlen. apply Hlen. by apply list_elem_of_In.
Qed.

End SampleFacts.

(** ** Sorting, median and mode *)

Section SortFacts.
Context {A : Type} (leb : A → A → bool).
Implicit Types (l : list A) (x : A).

Lemma insert_sorted_perm x l : insert_sorted leb x l ≡ₚ x :: l.
Proof.
  induction l as [|y l IH]; simpl; [done|].
  destruct (leb x y); [done|]. rewrite IH. apply Permutation_swap.
Qed.

Lemma sort_by_perm l : sort_by leb l ≡ₚ l.
Proof.
  induction l as [|x l IH]; simpl; [done|].
  unfold sort_by in *. simpl. by rewrite insert_sorted_perm, IH.
Qed.


Lemma elem_of_sort_by x l : x ∈ sort_by leb l ↔ x ∈ l.
Proof. by rewrite sort_by_perm. Qed.
End SortFacts.

Section MedianModeFacts.
Implicit Types (cs : list cell) (v : value) (c : cell).


Lemma dropna_nil cs : dropna cs = [] ↔ Forall (λ c, c = None) cs.
Proof.
  induction cs as [|[v|] cs IH]; simpl.
  - by split; [constructor|].
  - split; [done|]. by intros [[=] _]%Forall_cons.
  - rewrite IH. split; [by constructor|]. by intros [_ ?]%Forall_cons.
Qed.



(** A column with a value has a mode, and the mode is one of its most
    frequent values. *)
Lemma mode_nil cs : mode cs = [] ↔ dropna cs = [].
Proof.
  unfold mode. set (vs := dropna cs). split; [|by intros ->].
  intros Hnil. destruct vs as [|v0 vs'] eqn:Hvs; [done|]. exfalso.
  assert (max_list ((λ v, occurrences v vs) <$> vs)
          ∈ (λ v, occurrences v vs) <$> vs) as Hmax.
  { apply max_list_elem_of. by rewrite Hvs. }
  apply list_elem_of_fmap in Hmax as (v & Hv & Hin).
  assert (v ∈ sort_by value_leb
            (unique (filter (λ u, occurrences u vs
                                  = max_list ((λ v, occurrences v vs) <$> vs)) vs)))
    as Hsorted.
  { apply elem_of_sort_by. unfold unique. apply elem_of_keep_first.
    split; [|apply not_elem_of_nil]. apply list_elem_of_filter. by split. }
  subst vs. rewrite Hvs in Hsorted. rewrite Hnil in Hsorted.
  by apply elem_of_nil in Hsorted.
Qed.


End MedianModeFacts.

(** ** Columns of a well-formed table *)

Section ColumnFacts.
Implicit Types (d : DataFrame) (i j : nat) (js : list nat) (v : value)
  (r : row) (cs : list cell) (t : dtype).








(** Dropping duplicates loses no row: every row of the table is still
    there. *)
Lemma elem_of_rows_drop_duplicates d r :
  r ∈ rows (drop_duplicates d) ↔ r ∈ rows d.
Proof.
  unfold drop_duplicates, duplicated. destruct (empty d); [done|]. simpl.
  rewrite elem_of_keep_first. set_solver.
Qed.

Lemma elem_of_column d j c :
  c ∈ column d j ↔ ∃ r, r ∈ rows d ∧ c = default None (r !! j).
Proof.
  unfold column. rewrite list_elem_of_fmap. naive_solver.
Qed.

Lemma elem_of_column_drop_duplicates d j c :
  c ∈ column (drop_duplicates d) j ↔ c ∈ column d j.
Proof.
  rewrite !elem_of_column. by setoid_rewrite elem_of_rows_drop_duplicates.
Qed.

Lemma column_sublist d d' j :
  rows d' `sublist_of` rows d → column d' j `sublist_of` column d j.
Proof. unfold column. by intros ->. Qed.

Lemma isnull_sum_zero d j :
  isnull_sum d j = 0 ↔ Forall (λ c, c ≠ None) (column d j).
Proof.
  unfold isnull_sum. induction (column d j) as [|c cs IH]; [done|].
  rewrite Forall_cons, <- IH. destruct c as [v|].
  - rewrite filter_cons_False by done. naive_solver.
  - rewrite filter_cons_True by done. simpl. naive_solver.
Qed.




Lemma column_fillna_ne d i j v : i ≠ j → column (fillna d i v) j = column d j.
Proof.
  intros Hij. unfold column, fillna. simpl. rewrite <- list_fmap_compose.
  apply list_fmap_ext. intros _ r _. simpl. by rewrite list_lookup_alter_ne.
Qed.



Lemma row_filled_fillna d j v :
  Forall2 filled_from (rows d) (rows (fillna d j v)).
Proof.
  unfold fillna. simpl. apply Forall2_fmap_r, Forall_Forall2_diag, Forall_true.
  intros r. unfold filled_from. revert j.
  induction r as [|c r IH]; intros j; [constructor|].
  destruct j as [|j]; simpl.
  - constructor; [destruct c; auto|]. apply Forall_Forall2_diag, Forall_true. auto.
  - constructor; [auto|apply IH].
Qed.

Lemma filled_from_refl r : filled_from r r.
Proof. apply Forall_Forall2_diag, Forall_true. auto. Qed.

Lemma filled_from_trans r1 r2 r3 :
  filled_from r1 r2 → filled_from r2 r3 → filled_from r1 r3.
Proof.
  unfold filled_from. intros H12 H23. revert r3 H23.
  induction H12 as [|c1 c2 r1 r2 Hc _ IH]; intros r3 H23;
    inversion H23 as [|? c3 ? r3' Hc' H23']; subst; constructor.
  - destruct Hc as [-> | ->]; [by left|done].
  - by apply IH.
Qed.

Lemma rows_filled_trans (l1 l2 l3 : list row) :
  Forall2 filled_from l1 l2 → Forall2 filled_from l2 l3 →
  Forall2 filled_from l1 l3.
Proof. apply Forall2_trans. intros r1 r2 r3. apply filled_from_trans. Qed.

(** Selected columns: positions below the column count, each once, of
    the requested types. *)
Lemma elem_of_select_dtypes (include : dtype → bool) d j :
  j ∈ select_dtypes include d ↔ ∃ t, dtype_of d j = Some t ∧ include t = true.
Proof.
  unfold select_dtypes. rewrite list_elem_of_filter, elem_of_seq.
  unfold dtype_of, ncols. split.
  - intros [Hinc _]. destruct (columns d !! j) as [[n t]|]; [|done]. by exists t.
  - intros (t & Ht & Hinc). split; [by rewrite Ht|].
    destruct (columns d !! j) eqn:Hj; [|done].
    apply lookup_lt_Some in Hj. lia.
Qed.


Lemma NoDup_select_dtypes include d : NoDup (select_dtypes include d).
Proof. apply NoDup_filter, NoDup_seq. Qed.

End ColumnFacts.

(** ** The two filling loops *)

Section LoopFacts.
Implicit Types (d : DataFrame) (i j : nat) (js : list nat) (v : value)
  (cs : list cell).

Lemma fill_medians_cons j js d :
  fill_medians (j :: js) d = fill_medians js (fill_median_body d j).
Proof. reflexivity. Qed.



Lemma rows_filled_fill_median_body d j :
  Forall2 filled_from (rows d) (rows (fill_median_body d j)).
Proof.
  unfold fill_median_body, fillna_median.
  destruct (0 <? _); [destruct (median _)|]; try apply row_filled_fillna.
  all: apply Forall_Forall2_diag, Forall_true, filled_from_refl.
Qed.

Lemma column_fill_median_body_ne d i j :
  i ≠ j → column (fill_median_body d i) j = column d j.
Proof.
  intros Hij. unfold fill_median_body, fillna_median.
  destruct (0 <? _); [|done]. destruct (median _); [|done].
  by apply column_fillna_ne.
Qed.




Lemma rows_filled_fill_medians js d :
  Forall2 filled_from (rows d) (rows (fill_medians js d)).
Proof.
  revert d. induction js as [|i js IH]; intros d.
  - apply Forall_Forall2_diag, Forall_true, filled_from_refl.
  - rewrite fill_medians_cons. eapply rows_filled_trans; [|apply IH].
    apply rows_filled_fill_median_body.
Qed.


Lemma rows_filled_fill_modes js d :
  Forall2 filled_from (rows d) (rows (fill_modes js d).2).
Proof.
  revert d. induction js as [|i js IH]; intros d; simpl.
  - apply Forall_Forall2_diag, Forall_true, filled_from_refl.
  - destruct (0 <? _); [|apply IH]. destruct (mode _) as [|v vs]; simpl.
    + apply Forall_Forall2_diag, Forall_true, filled_from_refl.
    + eapply rows_filled_trans; [|apply IH]. apply row_filled_fillna.
Qed.



End LoopFacts.

(** ** Order of the rows that survive *)

Section FirstOccurrence.
Context {A : Type} `{EqDecision A}.
Implicit Types (l seen : list A) (x : A).

Lemma keep_first_app seen l1 l2 :
  mask_select (negb <$> duplicated_from seen (l1 ++ l2)) (l1 ++ l2)
  = mask_select (negb <$> duplicated_from seen l1) l1
    ++ mask_select (negb <$> duplicated_from (reverse l1 ++ seen) l2) l2.
Proof.
  revert seen. induction l1 as [|x l1 IH]; intros seen; [done|].
  cbn [app duplicated_from fmap list_fmap mask_select].
  rewrite reverse_cons, <- app_assoc. cbn [app].
  destruct (bool_decide (x ∈ seen)); cbn [negb]; by rewrite IH.
Qed.

(** A row is kept where it first occurs, after everything that was kept
    before it. *)
Lemma unique_first_occurrence l1 x l2 :
  x ∉ l1 → ∃ k, unique (l1 ++ x :: l2) = unique l1 ++ x :: k.
Proof.
  intros Hx. unfold unique. rewrite keep_first_app.
  cbn [duplicated_from fmap list_fmap mask_select].
  rewrite bool_decide_eq_false_2.
  - cbn [negb]. eauto.
  - rewrite app_nil_r, elem_of_reverse. done.
Qed.
End FirstOccurrence.

Section CleanFrameFacts.
Implicit Types (d : DataFrame) (j : nat).

Lemma rows_filled_clean_frame d :
  Forall2 filled_from (rows (drop_duplicates d)) (rows (clean_frame d).2).
Proof.
  unfold clean_frame. destruct (0 <? _); simpl.
  - eapply rows_filled_trans; [apply rows_filled_fill_medians|].
    apply rows_filled_fill_modes.
  - apply Forall_Forall2_diag, Forall_true, filled_from_refl.
Qed.

Lemma rows_drop_duplicates_unique d :
  empty d = false → rows (drop_duplicates d) = unique (rows d).
Proof. unfold drop_duplicates, duplicated. by intros ->. Qed.

Lemma empty_false d : ncols d ≠ 0 → rows d ≠ [] → empty d = false.
Proof.
  unfold empty, nrows. intros Hc Hr. destruct (rows d); [done|].
  rewrite bool_decide_eq_false_2 by done.
  by rewrite bool_decide_eq_false_2 by done.
Qed.
End CleanFrameFacts.

Section CleanTheorems.
Context {G : Type}.
Implicit Types (w : world G) (d : DataFrame) (j : nat) (t : dtype).

(** C10. What [clean_data] leaves alone on a loaded table, whether it
    returns or raises: the columns (names, types, order) and the source
    name; the rows are the rows without duplicates, each kept where it
    first occurred and in the old order, with nothing but missing cells
    changed; so the row count does not grow. *)
Theorem clean_data_frame_condition w d :
  df (self w) = Some d →
  ∃ d',
    self (final (clean_data w))
    = {| df := Some d'; filename := filename (self w) |}
    ∧ columns d' = columns d
    ∧ nrows d' ≤ nrows d
    ∧ rows (drop_duplicates d) `sublist_of` rows d
    ∧ Forall2 filled_from (rows (drop_duplicates d)) (rows d')
    ∧ (∀ l1 r l2,
         ncols d ≠ 0 → rows d = l1 ++ r :: l2 → r ∉ l1 →
         ∃ k, rows (drop_duplicates d) = unique l1 ++ r :: k).
Proof.
  intros Hd. exists (clean_frame d).2.
  destruct (clean_data_loaded w d Hd) as (Hself & _ & _).
  split; [done|]. split; [apply columns_clean_frame|].
  split; [|split; [apply rows_drop_duplicates|split]].
  - rewrite nrows_clean_frame. pose proof (nrows_drop_duplicates d). lia.
  - apply rows_filled_clean_frame.
  - intros l1 r l2 Hc Hrows Hr.
    rewrite rows_drop_duplicates_unique.
    + rewrite Hrows. by apply unique_first_occurrence.
    + apply empty_false; [done|]. rewrite Hrows. by destruct l1.
Qed.

Lemma isnull_total_zero d j : isnull_total d = 0 → j < ncols d → isnull_sum d j = 0.
Proof.
  unfold isnull_total. intros Hsum Hj.
  assert (isnull_sum d j ∈ isnull_sum d <$> seq 0 (ncols d)) as Hin.
  { apply list_elem_of_fmap. exists j. split; [done|]. apply elem_of_seq. lia. }
  revert Hsum Hin. generalize (isnull_sum d <$> seq 0 (ncols d)).
  intros l. induction l as [|n l IH]; simpl.
  - by intros _ ?%elem_of_nil.
  - intros Hsum [->|Hin]%elem_of_cons; [lia|]. apply IH; [lia|done].
Qed.





Lemma dtype_of_columns d d' j : columns d' = columns d → dtype_of d' j = dtype_of d j.
Proof. unfold dtype_of. by intros ->. Qed.


Lemma dtype_of_lt d j t : dtype_of d j = Some t → j < ncols d.
Proof.
  unfold dtype_of, ncols. destruct (columns d !! j) eqn:Hj; [|done].
  intros _. by apply lookup_lt_Some in Hj.
Qed.

Lemma Forall_sublist_of {A} (P : A → Prop) (l1 l2 : list A) :
  l1 `sublist_of` l2 → Forall P l2 → Forall P l1.
Proof.
  intros Hsub%sublist_subseteq. rewrite !Forall_forall. intros H2 x Hx.
  by apply H2, Hsub.
Qed.




End CleanTheorems.

(** * The theorems at work on the example host *)

(** C4 on [export_report] right after start: one line, no report file. *)
Lemma no_table_no_effect_witness :
  df (self (init 0)) = None
  ∧ ∃ msg, run Export (init 0) = Return tt (print (Lit msg) (init 0))
           ∧ self (print (Lit msg) (init 0)) = self (init 0)
           ∧ printed (init 0) (run Export (init 0)) = [Print (Lit msg)].
Proof.
  split; [reflexivity|].
  apply (no_table_no_effect Export (init 0)). reflexivity.
Defined.

(** C3 on a text file, with the sales table loaded before. *)
Lemma load_failure_keeps_session_witness :
  load_failure "notes.TXT" (UnsupportedType ".txt")
  ∧ load_data "notes.TXT" (loaded scenario_table)
    = Return false (print (UnsupportedType ".txt") (loaded scenario_table))
  ∧ df (self (print (UnsupportedType ".txt") (loaded scenario_table)))
    = Some scenario_table
  ∧ filename (self (print (UnsupportedType ".txt") (loaded scenario_table)))
    = Some "data.csv".
Proof.
  assert (load_failure "notes.TXT" (UnsupportedType ".txt")) as Hfail.
  { apply (unsupported_format "notes.TXT").
    change (".txt" ∉ [".csv"; ".xlsx"; ".xls"]).
    rewrite !not_elem_of_cons.
    repeat split; try discriminate. apply not_elem_of_nil. }
  split; [exact Hfail|].
  apply (load_failure_keeps_session "notes.TXT" (UnsupportedType ".txt")
           (loaded scenario_table) Hfail).
Defined.

(** C3 on a file that does not exist. *)
Lemma load_failure_missing_file :
  load_data "march.csv" (init 0)
  = Return false (print (LoadError (OtherError "No such file or directory"))
                        (init 0)).
Proof. reflexivity. Qed.

(** C6 on the analyzer that holds the table. *)
Lemma scenario_overview_and_clean_witness :
  df (self (loaded scenario_table)) = Some scenario_table
  ∧ Print (ShapeLine 3 2)
      ∈ printed (loaded scenario_table) (show_overview (loaded scenario_table))
  ∧ Print (RemovedDuplicates 1)
      ∈ printed (loaded scenario_table) (clean_data (loaded scenario_table)).
Proof.
  split; [reflexivity|].
  destruct (scenario_overview_and_clean (loaded scenario_table) eq_refl)
    as (Hov & _ & Hcl & _).
  rewrite Hov, Hcl. split.
  - do 4 apply list_elem_of_further. apply list_elem_of_here.
  - do 3 apply list_elem_of_further. apply list_elem_of_here.
Defined.

(** C8 on a table that has one text column. *)
Lemma visualize_blank_panels_witness :
  df (self (loaded text_table)) = Some text_table
  ∧ select_dtypes is_number text_table = []
  ∧ ∃ fig, SaveFig "analysis_dashboard.png" fig
             ∈ printed (loaded text_table)
                 (create_visualizations (loaded text_table))
           ∧ hist_panel fig = None ∧ heatmap_panel fig = None
           ∧ scatter_panel fig = None ∧ bar_panel fig ≠ None.
Proof.
  split; [reflexivity|]. split; [reflexivity|].
  destruct (visualize_blank_panels (loaded text_table) text_table eq_refl)
    as (fig & w' & Hrun & Hprinted & Hnum & _ & _).
  exists fig. destruct (Hnum eq_refl) as (H1 & H3 & H4).
  split; [|split; [exact H1|split; [exact H3|split; [exact H4|]]]].
  - rewrite Hprinted. do 3 apply list_elem_of_further. apply list_elem_of_here.
  - injection Hrun as <-. unfold printed in Hprinted. cbn in Hprinted.
    injection Hprinted as <-. discriminate.
Defined.


(** C9 on a run that loads, cleans and leaves. *)
Lemma session_consistent_witness :
  consistent (self (final (main 0 ["1"; "sales.csv"; "5"; "2"; "8"]))).
Proof. apply (proj1 (session_consistent 0 ["1"; "sales.csv"; "5"; "2"; "8"])). Defined.

(** C10 on the table whose rows become equal. *)
Lemma clean_data_frame_condition_witness :
  df (self (loaded tie_table)) = Some tie_table
  ∧ ∃ d', self (final (clean_data (loaded tie_table)))
          = {| df := Some d'; filename := Some "data.csv" |}
          ∧ columns d' = columns tie_table
          ∧ nrows d' ≤ nrows tie_table.
Proof.
  split; [reflexivity|].
  destruct (clean_data_frame_condition (loaded tie_table) tie_table eq_refl)
    as (d' & Hself & Hcols & Hrows & _).
  exists d'. split; [exact Hself|]. split; [exact Hcols|exact Hrows].
Defined.





(** * Further properties of the methods *)

Section ReadOnlyRuns.
Context {G : Type} `{!Host G}.
Implicit Types (w : world G) (d : DataFrame).

(** X1. The four reporting operations never touch the analyzer: table and
    source name are exactly as before, with or without a table, and also
    when [export_report] raises. *)
Theorem reporting_keeps_analyzer (op : operation) w :
  op ≠ Clean → self (final (run op w)) = self w.
Proof.
  intros Hop. destruct op; simpl; [| |done| |].
  - apply show_overview_self.
  - apply show_statistics_self.
  - apply create_visualizations_self.
  - apply export_report_self.
Qed.




(** A load that succeeds discards whatever was loaded: the analyzer
    afterwards holds the table read, under the last component of the
    path, and the shape is reported. *)
Lemma load_data_replaces (path : string) d w :
  (lower (path_suffix path) = ".csv" ∧ read_csv path = inr d)
  ∨ (lower (path_suffix path) ∈ [".xlsx"; ".xls"] ∧ read_excel path = inr d) →
  ∃ w', load_data path w = Return true w'
        ∧ self w' = {| df := Some d; filename := Some (path_name path) |}
        ∧ printed w (load_data path w)
          = [Print (LoadedLine (path_name path));
             Print (ShapeLine (nrows d) (ncols d))].
Proof.
  intros Hok. unfold load_data.
  assert ((if String.eqb (lower (path_suffix path)) ".csv"
           then Some (read_csv path)
           else if String.eqb (lower (path_suffix path)) ".xlsx"
                   || String.eqb (lower (path_suffix path)) ".xls"
                then Some (read_excel path) else None) = Some (inr d)) as ->.
  { destruct Hok as [[-> ->] | [Hext ->]]; [done|].
    rewrite !elem_of_cons in Hext.
    destruct Hext as [-> | [-> | []%elem_of_nil]]; done. }
  eexists. split; [reflexivity|]. split.
  - by rewrite self_prints.
  - apply printed_spec. cbn [final]. by rewrite output_prints.
Qed.
End ReadOnlyRuns.

(** ** More on [clean_data] *)

Section CleanEdges.
Context {G : Type}.
Implicit Types (w : world G) (d : DataFrame) (j : nat) (js : list nat).

Lemma isnull_sum_pos d j : 0 < isnull_sum d j ↔ None ∈ column d j.
Proof.
  destruct (decide (isnull_sum d j = 0)) as [H0|Hpos].
  - split; [lia|]. intros Hin. apply isnull_sum_zero in H0.
    rewrite Forall_forall in H0. by apply H0 in Hin.
  - split; [intros _|lia]. rewrite isnull_sum_zero in Hpos.
    apply not_Forall_Exists in Hpos; [|intros c; apply _].
    apply Exists_exists in Hpos as (c & Hc & Hnone).
    destruct c; [by destruct Hnone|done].
Qed.

Lemma isnull_sum_column d d' j : column d' j = column d j → isnull_sum d' j = isnull_sum d j.
Proof. unfold isnull_sum. by intros ->. Qed.

Lemma isnull_total_zero_intro d :
  (∀ j, j < ncols d → isnull_sum d j = 0) → isnull_total d = 0.
Proof.
  intros Hall. unfold isnull_total.
  assert (Forall (λ n, n = 0) (isnull_sum d <$> seq 0 (ncols d))) as Hzero.
  { apply Forall_fmap, Forall_forall. intros j Hj%elem_of_seq. apply Hall. lia. }
  induction Hzero as [|n l -> _ IH]; [done|]. simpl. by rewrite IH.
Qed.

Lemma isnull_total_drop_duplicates d :
  isnull_total d = 0 → isnull_total (drop_duplicates d) = 0.
Proof.
  intros Hzero. apply isnull_total_zero_intro. intros j Hj.
  unfold ncols in Hj. rewrite columns_drop_duplicates in Hj.
  apply isnull_sum_zero.
  eapply Forall_sublist_of; [apply column_sublist, rows_drop_duplicates|].
  by apply isnull_sum_zero, isnull_total_zero.
Qed.

(** What [drop_duplicates] returns has nothing flagged. *)
Lemma duplicated_drop_duplicates d : count_true (duplicated (drop_duplicates d)) = 0.
Proof.
  unfold drop_duplicates. destruct (empty d) eqn:He.
  { by apply empty_no_duplicates. }
  unfold duplicated. rewrite He.
  destruct (empty {| columns := _; rows := _ |}); [done|]. cbn [rows].
  apply duplicated_from_NoDup; [apply NoDup_keep_first|].
  intros r _. apply not_elem_of_nil.
Qed.

Lemma NoDup_rows_no_duplicates d : NoDup (rows d) → count_true (duplicated d) = 0.
Proof.
  intros Hnd. unfold duplicated. destruct (empty d); [done|].
  apply duplicated_from_NoDup; [done|]. intros r _. apply not_elem_of_nil.
Qed.

Lemma clean_frame_complete d :
  isnull_total (drop_duplicates d) = 0 → clean_frame d = (None, drop_duplicates d).
Proof. unfold clean_frame. by intros ->. Qed.

Lemma column_fill_medians_ne js d j :
  j ∉ js → column (fill_medians js d) j = column d j.
Proof.
  revert d. induction js as [|i js IH]; intros d Hj; [done|].
  apply not_elem_of_cons in Hj as [Hne Hj].
  rewrite fill_medians_cons, IH by done. by apply column_fill_median_body_ne.
Qed.

(** The categorical loop raises exactly on a selected column that has a
    missing cell and no value, and then with [KeyError]. *)
Lemma fill_modes_raises js d :
  NoDup js →
  (∀ e, (fill_modes js d).1 = Some e → e = KeyError 0)
  ∧ ((fill_modes js d).1 ≠ None ↔
     ∃ j, j ∈ js ∧ 0 < isnull_sum d j ∧ mode (column d j) = []).
Proof.
  revert d. induction js as [|i js IH]; intros d Hnd.
  { simpl. split; [done|]. split; [done|]. by intros (j & ?%elem_of_nil & _). }
  apply NoDup_cons in Hnd as [Hi Hnd]. cbn [fill_modes].
  destruct (0 <? isnull_sum d i) eqn:Hmiss.
  - destruct (mode (column d i)) as [|v vs] eqn:Hmode.
    + cbn. split; [by intros e [= <-]|]. split; [intros _|done].
      exists i. apply Nat.ltb_lt in Hmiss. split; [by left|done].
    + destruct (IH (fillna d i v) Hnd) as [IHe IHiff]. split; [done|].
      rewrite IHiff. split; intros (j & Hj & Hpos & Hnil).
      * assert (i ≠ j) as Hij by (by intros ->).
        exists j. rewrite <- (isnull_sum_column d (fillna d i v) j)
          by by apply column_fillna_ne.
        rewrite <- (column_fillna_ne d i j v) by done. split; [by right|done].
      * apply elem_of_cons in Hj as [->|Hj]; [congruence|].
        assert (i ≠ j) as Hij by (by intros ->).
        exists j. rewrite (isnull_sum_column d (fillna d i v) j)
          by by apply column_fillna_ne.
        by rewrite column_fillna_ne by done.
  - destruct (IH d Hnd) as [IHe IHiff]. split; [done|]. rewrite IHiff.
    apply Nat.ltb_ge in Hmiss. split; intros (j & Hj & Hpos & Hnil).
    + exists j. split; [by right|done].
    + apply elem_of_cons in Hj as [->|Hj]; [lia|]. by exists j.
Qed.

Lemma clean_data_raise_frame w d :
  df (self w) = Some d →
  (∃ e w', clean_data w = Raise e w') ↔ (clean_frame d).1 ≠ None.
Proof.
  intros Hd. destruct (clean_data_loaded w d Hd) as (_ & _ & Hrun).
  destruct (clean_frame d).1 as [e|].
  - destruct Hrun as [Hrun _]. split; [done|]. intros _. by eexists _, _.
  - destruct Hrun as [Hrun _]. split; [|done]. intros (e & w' & Hraise). congruence.
Qed.

(** X4. [clean_data] lets one exception escape, [KeyError], and exactly
    when the table has a row and a text column (object or str) without any
    value: [mode()] of that column is empty and [mode()[0]] fails. *)
Theorem clean_data_raises w d :
  df (self w) = Some d →
  (∀ e w', clean_data w = Raise e w' → e = KeyError 0)
  ∧ ((∃ e w', clean_data w = Raise e w') ↔
     0 < nrows d
     ∧ ∃ j t, dtype_of d j = Some t ∧ is_object_str t = true
              ∧ Forall (λ c, c = None) (column d j)).
Proof.
  intros Hd.
  set (d0 := drop_duplicates d).
  set (d2 := fill_medians (select_dtypes is_number d0) d0).
  assert (columns d2 = columns d) as Hcols2.
  { unfold d2, d0. by rewrite columns_fill_medians, columns_drop_duplicates. }
  assert (∀ j t, dtype_of d j = Some t → is_object_str t = true →
                 column d2 j = column d0 j) as Hcol2.
  { intros j t Ht Hobj. apply column_fill_medians_ne.
    rewrite elem_of_select_dtypes. intros (t' & Ht' & Hnum).
    rewrite (dtype_of_columns d) in Ht' by apply columns_drop_duplicates.
    rewrite Ht in Ht'. injection Ht' as <-. by destruct t. }
  destruct (fill_modes_raises (select_dtypes is_object_str d2) d2
              (NoDup_select_dtypes _ _)) as [Hkey Hiff].
  split.
  - intros e w' Hraise.
    destruct (clean_data_loaded w d Hd) as (_ & _ & Hrun).
    unfold clean_frame in Hrun. fold d0 in Hrun.
    destruct (0 <? isnull_total d0); fold d2 in Hrun.
    + destruct (fill_modes _ d2).1 as [e'|] eqn:He'.
      * destruct Hrun as [Hrun _]. rewrite Hrun in Hraise.
        injection Hraise as <- _. by apply Hkey.
      * destruct Hrun as [Hrun _]. congruence.
    + destruct Hrun as [Hrun _]. congruence.
  - rewrite (clean_data_raise_frame w d Hd). unfold clean_frame. fold d0.
    destruct (0 <? isnull_total d0) eqn:Hmiss; fold d2.
    + rewrite Hiff. split.
      * intros (j & (t & Ht & Hobj)%elem_of_select_dtypes & Hpos & Hnil).
        rewrite (dtype_of_columns d) in Ht by done.
        rewrite (isnull_sum_column d0 d2 j) in Hpos by by eapply Hcol2.
        rewrite (Hcol2 j t) in Hnil by done.
        apply isnull_sum_pos in Hpos. split.
        -- apply elem_of_column in Hpos as (r & Hr & _).
           unfold d0 in Hr. rewrite elem_of_rows_drop_duplicates in Hr.
           unfold nrows. destruct (rows d); [by apply elem_of_nil in Hr|simpl; lia].
        -- exists j, t. split; [done|]. split; [done|].
           apply mode_nil, dropna_nil in Hnil. rewrite Forall_forall in *.
           intros c Hc. by apply Hnil, elem_of_column_drop_duplicates.
      * intros (Hrow & j & t & Ht & Hobj & Hnone).
        assert (Forall (λ c, c = None) (column d0 j)) as Hnone0.
        { rewrite Forall_forall in *. intros c Hc.
          by apply Hnone, elem_of_column_drop_duplicates. }
        exists j. split; [|split].
        -- apply elem_of_select_dtypes. exists t.
           by rewrite (dtype_of_columns d) by done.
        -- rewrite (isnull_sum_column d0 d2 j) by by eapply Hcol2.
           apply isnull_sum_pos.
           destruct (rows d) as [|r rs] eqn:Hrows; [unfold nrows in Hrow;
             rewrite Hrows in Hrow; simpl in Hrow; lia|].
           assert (default None (r !! j) ∈ column d0 j) as Hin.
           { apply elem_of_column. exists r. split; [|done].
             apply elem_of_rows_drop_duplicates. rewrite Hrows. by left. }
           rewrite Forall_forall in Hnone0. by rewrite <- (Hnone0 _ Hin).
        -- rewrite (Hcol2 j t) by done. by apply mode_nil, dropna_nil.
    + split; [done|]. intros (Hrow & j & t & Ht & Hobj & Hnone). exfalso.
      apply Nat.ltb_ge in Hmiss.
      assert (isnull_sum d0 j = 0) as H0.
      { apply isnull_total_zero; [lia|]. unfold ncols, d0.
        rewrite columns_drop_duplicates. by eapply dtype_of_lt. }
      destruct (rows d) as [|r rs] eqn:Hrows; [unfold nrows in Hrow;
        rewrite Hrows in Hrow; simpl in Hrow; lia|].
      assert (default None (r !! j) ∈ column d0 j) as Hin.
      { apply elem_of_column. exists r. split; [|done].
        apply elem_of_rows_drop_duplicates. rewrite Hrows. by left. }
      assert (default None (r !! j) ∈ column d j) as Hin'
        by by apply elem_of_column_drop_duplicates.
      rewrite Forall_forall in Hnone. rewrite (Hnone _ Hin') in Hin.
      apply isnull_sum_pos in Hin. lia.
Qed.

(** X5. On a table without missing values [clean_data] is idempotent: the
    first run returns the table without its duplicate rows, and a second
    run changes nothing and reports no duplicate and no missing value. *)
Theorem clean_data_complete_idempotent w d :
  df (self w) = Some d → isnull_total d = 0 →
  let w1 := final (clean_data w) in
  clean_data w = Return tt w1
  ∧ self w1 = {| df := Some (drop_duplicates d); filename := filename (self w) |}
  ∧ clean_data w1 = Return tt (final (clean_data w1))
  ∧ self (final (clean_data w1)) = self w1
  ∧ printed w1 (clean_data w1)
    = Print <$> banner "DATA CLEANING"
        ++ [Lit "No duplicate rows found"; Lit "No missing values found";
            RowsBeforeAfter (nrows (drop_duplicates d)) (nrows (drop_duplicates d));
            Blank].
Proof.
  intros Hd Hzero w1.
  pose proof (isnull_total_drop_duplicates d Hzero) as Hzero0.
  destruct (clean_data_loaded w d Hd) as (Hself & _ & Hrun).
  rewrite (clean_frame_complete d Hzero0) in Hself, Hrun. cbn [fst snd] in *.
  destruct Hrun as [Hrun _]. split; [done|]. split; [done|].
  assert (df (self w1) = Some (drop_duplicates d)) as Hd1 by (unfold w1; by rewrite Hself).
  destruct (clean_data_loaded w1 _ Hd1) as (Hself1 & _ & Hrun1).
  pose proof (duplicated_drop_duplicates d) as Hnone.
  assert (drop_duplicates (drop_duplicates d) = drop_duplicates d) as Hsame
    by by apply drop_duplicates_none.
  rewrite clean_frame_complete in Hself1, Hrun1 by by rewrite Hsame.
  cbn [fst snd] in *. rewrite Hsame in Hself1, Hrun1.
  destruct Hrun1 as [Hrun1 Hprinted]. split; [done|]. split.
  - rewrite Hself1. unfold w1. rewrite Hself. done.
  - rewrite Hprinted. unfold duplicates_line, missing_line.
    by rewrite Hnone, Hzero0.
Qed.

(** X6. The counts [clean_data] reports add up: the rows before are the
    rows after plus the duplicates it says it removed. *)
Theorem clean_data_row_report w w' d :
  df (self w) = Some d → clean_data w = Return tt w' →
  ∃ d',
    df (self w') = Some d'
    ∧ Print (RowsBeforeAfter (nrows d) (nrows d')) ∈ printed w (clean_data w)
    ∧ nrows d' + count_true (duplicated d) = nrows d
    ∧ (nrows d' < nrows d →
       Print (RemovedDuplicates (nrows d - nrows d')) ∈ printed w (clean_data w))
    ∧ (nrows d' = nrows d →
       Print (Lit "No duplicate rows found") ∈ printed w (clean_data w)).
Proof.
  intros Hd Hret.
  destruct (clean_data_loaded w d Hd) as (Hself & _ & Hrun).
  destruct (clean_frame d).1 as [e|].
  { destruct Hrun as [Hrun _]. congruence. }
  destruct Hrun as [_ Hprinted]. rewrite Hret in Hself. cbn [final] in Hself.
  exists (clean_frame d).2. rewrite Hself, Hprinted. split; [done|].
  pose proof (nrows_drop_duplicates d) as Hsum.
  rewrite <- (nrows_clean_frame d) in Hsum. cbn [banner fmap list_fmap app].
  split; [|split; [done|split]].
  - do 5 apply list_elem_of_further. apply list_elem_of_here.
  - intros Hless. do 3 apply list_elem_of_further. unfold duplicates_line.
    destruct (0 <? count_true (duplicated d)) eqn:Hdup.
    + replace (count_true (duplicated d)) with (nrows d - nrows (clean_frame d).2)
        by lia. apply list_elem_of_here.
    + apply Nat.ltb_ge in Hdup. lia.
  - intros Hsame. do 3 apply list_elem_of_further. unfold duplicates_line.
    destruct (0 <? count_true (duplicated d)) eqn:Hdup.
    + apply Nat.ltb_lt in Hdup. lia.
    + apply list_elem_of_here.
Qed.
End CleanEdges.

(** ** Cleaning the sample table *)

Section SampleClean.
Context {G : Type} `{!Host G}.
Implicit Types (w : world G) (d : DataFrame).

Lemma isnull_total_complete_rows d :
  Forall (λ r : row, length r = ncols d ∧ Forall (λ c, c ≠ None) r) (rows d) →
  isnull_total d = 0.
Proof.
  intros Hrows. apply isnull_total_zero_intro. intros j Hj.
  apply isnull_sum_zero, Forall_fmap. eapply Forall_impl; [apply Hrows|].
  intros r [Hlen Hfull]. cbn.
  destruct (lookup_lt_is_Some_2 r j) as [c Hc]; [lia|]. rewrite Hc. cbn.
  rewrite Forall_forall in Hfull. apply Hfull. by eapply list_elem_of_lookup_2.
Qed.

(** The sample table has one row per day, so no two rows are equal, and
    every cell holds a value. *)
Lemma sample_table_distinct_complete :
  ∃ d,
    (∀ w, ∃ w', create_sample_data w = Return true w'
                ∧ self w' = {| df := Some d;
                               filename := Some "sample_sales_data.csv" |}
                ∧ output w' = output w
                    ++ [Print (Lit "Sample dataset created (100 rows x 6 columns)")])
    ∧ nrows d = 100 ∧ NoDup (rows d) ∧ isnull_total d = 0.
Proof.
  unfold create_sample_data.
  set (dates := date_range_2024 100).
  assert (∀ i, i < 100 →
               dates !! i = Some ((19723 + Z.of_nat i) * nanoseconds_per_day)%Z)
    as Hdates.
  { intros i Hi. unfold dates, date_range_2024.
    by rewrite list_lookup_fmap, lookup_seq_lt by lia. }
  assert (length dates = 100) as Ld.
  { unfold dates, date_range_2024. by rewrite length_fmap, length_seq. }
  clearbody dates.
  destruct (random_choice ["North"; "South"; "East"; "West"] 100 _)
    as [regions g1] eqn:Hregions.
  destruct (random_choice ["Product A"; "Product B"; "Product C"] 100 g1)
    as [products g2] eqn:Hproducts.
  destruct (random_randint 1000 10000 100 g2) as [sales g3] eqn:Hsales.
  destruct (random_randint 10 100 100 g3) as [units g4] eqn:Hunits.
  assert (length regions = 100) as Lr.
  { pose proof (random_choice_length ["North"; "South"; "East"; "West"] 100
                  (random_seed 42)) as L. by rewrite Hregions in L. }
  assert (length products = 100) as Lp.
  { pose proof (random_choice_length ["Product A"; "Product B"; "Product C"]
                  100 g1) as L. by rewrite Hproducts in L. }
  assert (length sales = 100) as Ls.
  { pose proof (random_randint_length 1000 10000 100 g2) as L.
    by rewrite Hsales in L. }
  assert (length units = 100) as Lu.
  { pose proof (random_randint_length 10 100 100 g3) as L.
    by rewrite Hunits in L. }
  erewrite (DataFrame_of_dict_rows _ 100); [|
    repeat apply Forall_cons_2; try apply Forall_nil_2; simpl;
    rewrite ?length_fmap, ?length_zip_with; lia | done].
  eexists. split; [|split; [|split]].
  - intros w. eexists. split; [reflexivity|]. split; reflexivity.
  - unfold nrows. cbn [rows]. by rewrite length_fmap, length_seq.
  - cbn [rows]. apply NoDup_fmap_2_strong; [|apply NoDup_seq].
    intros i k Hi%elem_of_seq Hk%elem_of_seq Heq.
    apply (f_equal (λ r : row, r !! 0)) in Heq. cbn in Heq.
    rewrite !list_lookup_fmap, !Hdates in Heq by lia. cbn in Heq.
    injection Heq as Heq. unfold nanoseconds_per_day in Heq. lia.
  - apply isnull_total_complete_rows. cbn [rows ncols columns].
    apply Forall_fmap, Forall_forall. intros i Hi%elem_of_seq. cbn.
    split; [done|].
    destruct (lookup_lt_is_Some_2 regions i) as [r Hr]; [lia|].
    destruct (lookup_lt_is_Some_2 products i) as [p Hp]; [lia|].
    destruct (lookup_lt_is_Some_2 sales i) as [s Hs]; [lia|].
    destruct (lookup_lt_is_Some_2 units i) as [u Hu]; [lia|].
    rewrite !list_lookup_fmap, lookup_zip_with, Hr, Hp, Hs, Hu, Hdates by lia.
    cbn. repeat (constructor; [done|]). constructor.
Qed.

(** X7. Cleaning the sample table changes nothing: right after
    [create_sample_data], [clean_data] returns, finds no duplicate row and
    no missing value, and leaves the 100 rows as they are. *)
Theorem sample_then_clean w :
  ∃ w1,
    create_sample_data w = Return true w1
    ∧ clean_data w1 = Return tt (final (clean_data w1))
    ∧ self (final (clean_data w1)) = self w1
    ∧ printed w1 (clean_data w1)
      = Print <$> banner "DATA CLEANING"
          ++ [Lit "No duplicate rows found"; Lit "No missing values found";
              RowsBeforeAfter 100 100; Blank].
Proof.
  destruct sample_table_distinct_complete as (d & Hrun & Hrows & Hnd & Hzero).
  destruct (Hrun w) as (w1 & Hsample & Hself & _). exists w1. split; [done|].
  assert (df (self w1) = Some d) as Hd by by rewrite Hself.
  pose proof (NoDup_rows_no_duplicates d Hnd) as Hnone.
  pose proof (drop_duplicates_none d Hnone) as Hsame.
  destruct (clean_data_loaded w1 d Hd) as (Hself1 & _ & Hrun1).
  rewrite clean_frame_complete in Hself1, Hrun1 by by rewrite Hsame.
  cbn [fst snd] in *. rewrite Hsame in Hself1, Hrun1.
  destruct Hrun1 as [Hrun1 Hprinted]. split; [done|]. split.
  - rewrite Hself1, Hself. done.
  - rewrite Hprinted. unfold duplicates_line, missing_line.
    by rewrite Hnone, Hzero, Hrows.
Qed.
End SampleClean.

(** ** What the reports show *)

Section ReportFacts.
Context {G : Type} `{!Host G}.
Implicit Types (w : world G) (d : DataFrame) (j : nat).

Lemma filter_seq_head (P : nat → Prop) `{!∀ i, Decision (P i)} a n j rest :
  filter P (seq a n) = j :: rest →
  P j ∧ a ≤ j < a + n ∧ (∀ i, a ≤ i < j → ¬ P i)
  ∧ rest = filter P (seq (S j) (a + n - S j)).
Proof.
  revert a. induction n as [|n IH]; intros a; [done|]. cbn [seq].
  destruct (decide (P a)) as [Ha|Ha].
  - rewrite filter_cons_True by done. intros [= <- <-].
    split; [done|]. split; [lia|]. split; [lia|].
    by replace (a + S n - S a) with n by lia.
  - rewrite filter_cons_False by done. intros Hfilter.
    destruct (IH _ Hfilter) as (Hj & Hrange & Hfirst & Hrest).
    split; [done|]. split; [lia|]. split.
    + intros i Hi. destruct (decide (i = a)) as [->|Hne]; [done|].
      apply Hfirst. lia.
    + by replace (a + S n - S j) with (S a + n - S j) by lia.
Qed.

Lemma select_dtypes_head include d j rest :
  select_dtypes include d = j :: rest → first_selected include d j.
Proof.
  intros Hsel.
  assert (j ∈ select_dtypes include d) as Hj by (rewrite Hsel; by left).
  apply elem_of_select_dtypes in Hj. split; [done|].
  unfold select_dtypes in Hsel.
  apply filter_seq_head in Hsel as (_ & _ & Hfirst & _).
  intros i t Hi Ht. specialize (Hfirst i ltac:(lia)). rewrite Ht in Hfirst.
  cbn in Hfirst. by destruct (include t).
Qed.

(** X8. What the dashboard draws: the histogram is of the first numeric
    column, without its missing values; the bars are at most ten value
    counts of the first text or category column; the scatter pairs every
    row of the first two numeric columns; and a panel is drawn whenever
    its columns exist. *)
Theorem dashboard_panels w d :
  df (self w) = Some d →
  ∃ fig,
    SaveFig "analysis_dashboard.png" fig ∈ printed w (create_visualizations w)
    ∧ suptitle fig = filename (self w)
    ∧ (∀ name data, hist_panel fig = Some (name, data) →
       ∃ j, first_selected is_number d j
            ∧ name = column_name d j ∧ data = dropna (column d j))
    ∧ (∀ name bars, bar_panel fig = Some (name, bars) →
       ∃ j, first_selected is_object_category_str d j
            ∧ name = column_name d j
            ∧ bars = take 10 (value_counts (column d j)) ∧ length bars ≤ 10)
    ∧ (∀ x y xs ys, scatter_panel fig = Some (x, y, xs, ys) →
       ∃ j k, first_selected is_number d j ∧ j < k
              ∧ k ∈ select_dtypes is_number d
              ∧ (∀ i, j < i < k → i ∉ select_dtypes is_number d)
              ∧ x = column_name d j ∧ y = column_name d k
              ∧ xs = column d j ∧ ys = column d k
              ∧ length xs = nrows d ∧ length ys = nrows d)
    ∧ (select_dtypes is_number d ≠ [] → is_Some (hist_panel fig))
    ∧ (select_dtypes is_object_category_str d ≠ [] → is_Some (bar_panel fig))
    ∧ (2 ≤ length (select_dtypes is_number d) →
       is_Some (heatmap_panel fig) ∧ is_Some (scatter_panel fig)).
Proof.
  intros Hd. unfold create_visualizations. rewrite Hd.
  eexists. split.
  { unfold printed. cbn -[select_dtypes]. rewrite <- !app_assoc.
    rewrite drop_app_length. do 3 apply list_elem_of_further.
    apply list_elem_of_here. }
  cbn -[select_dtypes]. split; [by rewrite ?self_prints|].
  split; [|split; [|split; [|split; [|split]]]].
  - intros name data.
    destruct (select_dtypes is_number d) as [|c cs] eqn:Hsel; [done|].
    intros [= <- <-]. exists c. split; [|done]. by eapply select_dtypes_head.
  - intros name bars.
    destruct (select_dtypes is_object_category_str d) as [|c cs] eqn:Hsel; [done|].
    intros [= <- <-]. exists c. split; [by eapply select_dtypes_head|].
    split; [done|]. split; [done|]. rewrite length_take. lia.
  - intros x y xs ys.
    destruct (select_dtypes is_number d) as [|c0 [|c1 cs]] eqn:Hsel; [done..|].
    intros [= <- <- <- <-]. exists c0, c1.
    split; [by eapply select_dtypes_head|].
    pose proof Hsel as Hfilter. unfold select_dtypes in Hfilter.
    apply filter_seq_head in Hfilter as (_ & _ & _ & Hrest).
    symmetry in Hrest. apply filter_seq_head in Hrest as (_ & Hrange & Hfirst & _).
    split; [lia|]. split; [by right; left|]. split.
    + intros i Hi Hin. rewrite <- Hsel in Hin.
      apply elem_of_select_dtypes in Hin as (t & Ht & Hnum).
      apply (Hfirst i); [lia|]. by rewrite Ht.
    + unfold column. by rewrite !length_fmap.
  - by destruct (select_dtypes is_number d).
  - by destruct (select_dtypes is_object_category_str d).
  - destruct (select_dtypes is_number d) as [|c0 [|c1 cs]]; simpl; try lia.
    intros _. split; eauto.
Qed.

Lemma output_foldl_prints {A} (f : A → list text) (xs : list A) w :
  output (foldl (λ w x, prints (f x) w) w xs)
  = output w ++ (xs ≫= λ x, Print <$> f x).
Proof.
  revert w. induction xs as [|x xs IH]; intros w.
  - simpl. by rewrite app_nil_r.
  - cbn [foldl mbind list_bind]. rewrite IH, output_prints. by rewrite <- app_assoc.
Qed.

(** The lines of [show_statistics] on a loaded table. *)
Lemma show_statistics_printed w d :
  df (self w) = Some d →
  printed w (show_statistics w)
  = (Print <$> banner "STATISTICAL SUMMARY")
    ++ (if 0 <? length (select_dtypes is_number d)
        then [Print (Lit "--- Numeric Columns ---");
              Print (DescribeText (select_columns d (select_dtypes is_number d)))]
        else [])
    ++ (if 0 <? length (select_dtypes is_object_category_str d)
        then Print (Lit "--- Categorical Columns ---")
             :: (select_dtypes is_object_category_str d ≫= λ col,
                 [Print (ColumnHeader (column_name d col));
                  Print (CountsText (take 5 (value_counts (column d col))))])
        else [])
    ++ [Print Blank].
Proof.
  intros Hd. apply printed_spec. unfold show_statistics. rewrite Hd.
  cbn [final print emit output].
  destruct (0 <? length (select_dtypes is_object_category_str d));
    destruct (0 <? length (select_dtypes is_number d));
    rewrite ?output_foldl_prints; cbn [print emit output];
    rewrite ?output_prints; cbn [banner fmap list_fmap];
    rewrite <- ?app_assoc; cbn [app]; done.
Qed.

(** X9. [show_statistics] on a loaded table only prints; it shows at most
    five value counts per column, one block per text or category column,
    and the numeric summary exactly when there is a numeric column. *)
Theorem show_statistics_report w d :
  df (self w) = Some d →
  (∀ e, e ∈ printed w (show_statistics w) → ∃ t, e = Print t)
  ∧ (∀ counts, Print (CountsText counts) ∈ printed w (show_statistics w) →
     length counts ≤ 5)
  ∧ (∀ name, Print (ColumnHeader name) ∈ printed w (show_statistics w) ↔
     ∃ j, j ∈ select_dtypes is_object_category_str d ∧ name = column_name d j)
  ∧ ((∃ sub, Print (DescribeText sub) ∈ printed w (show_statistics w)) ↔
     select_dtypes is_number d ≠ []).
Proof.
  intros Hd. rewrite (show_statistics_printed w d Hd).
  set (nums := select_dtypes is_number d).
  set (cats := select_dtypes is_object_category_str d).
  assert (∀ e, e ∈ (cats ≫= λ col,
                    [Print (ColumnHeader (column_name d col));
                     Print (CountsText (take 5 (value_counts (column d col))))]) ↔
               ∃ j, j ∈ cats
                    ∧ (e = Print (ColumnHeader (column_name d j))
                       ∨ e = Print (CountsText (take 5 (value_counts (column d j))))))
    as Hblocks.
  { intros e. rewrite list_elem_of_bind. split.
    - intros (j & He & Hj). exists j. split; [done|].
      apply elem_of_cons in He as [->|He]; [by left|].
      apply elem_of_cons in He as [->|He]; [by right|]. by apply elem_of_nil in He.
    - intros (j & Hj & [-> | ->]); exists j; (split; [|done]);
        [by left|by right; left]. }
  split; [|split; [|split]].
  - intros e. rewrite !elem_of_app.
    intros [He | [He | [He | He]]].
    + apply list_elem_of_fmap in He as (t & -> & _). by exists t.
    + destruct (0 <? length nums); [|by apply elem_of_nil in He].
      repeat (apply elem_of_cons in He as [->|He]; [by eexists|]).
      by apply elem_of_nil in He.
    + destruct (0 <? length cats); [|by apply elem_of_nil in He].
      apply elem_of_cons in He as [->|He]; [by eexists|].
      apply Hblocks in He as (j & _ & [-> | ->]); by eexists.
    + apply elem_of_cons in He as [->|He]; [by eexists|]. by apply elem_of_nil in He.
  - intros counts. rewrite !elem_of_app.
    intros [He | [He | [He | He]]].
    + cbn in He. repeat (apply elem_of_cons in He as [He|He]; [done|]).
      by apply elem_of_nil in He.
    + destruct (0 <? length nums); [|by apply elem_of_nil in He].
      repeat (apply elem_of_cons in He as [He|He]; [done|]).
      by apply elem_of_nil in He.
    + destruct (0 <? length cats); [|by apply elem_of_nil in He].
      apply elem_of_cons in He as [He|He]; [done|].
      apply Hblocks in He as (j & _ & [He | He]); [done|].
      injection He as ->. rewrite length_take. lia.
    + apply elem_of_cons in He as [He|He]; [done|]. by apply elem_of_nil in He.
  - intros name. rewrite !elem_of_app. split.
    + intros [He | [He | [He | He]]].
      * cbn in He. repeat (apply elem_of_cons in He as [He|He]; [done|]).
        by apply elem_of_nil in He.
      * destruct (0 <? length nums); [|by apply elem_of_nil in He].
        repeat (apply elem_of_cons in He as [He|He]; [done|]).
        by apply elem_of_nil in He.
      * destruct (0 <? length cats); [|by apply elem_of_nil in He].
        apply elem_of_cons in He as [He|He]; [done|].
        apply Hblocks in He as (j & Hj & [He | He]); [|done].
        injection He as ->. by exists j.
      * apply elem_of_cons in He as [He|He]; [done|]. by apply elem_of_nil in He.
    + intros (j & Hj & ->). right. right. left.
      destruct (0 <? length cats) eqn:Hlen.
      * right. apply Hblocks. exists j. split; [done|by left].
      * apply Nat.ltb_ge in Hlen. destruct cats; [by apply elem_of_nil in Hj|].
        simpl in Hlen. lia.
  - split.
    + intros (sub & He). rewrite !elem_of_app in He.
      destruct He as [He | [He | [He | He]]].
      * cbn in He. repeat (apply elem_of_cons in He as [He|He]; [done|]).
        by apply elem_of_nil in He.
      * destruct (0 <? length nums) eqn:Hlen; [|by apply elem_of_nil in He].
        apply Nat.ltb_lt in Hlen. intros Hnil. rewrite Hnil in Hlen. simpl in Hlen. lia.
      * destruct (0 <? length cats); [|by apply elem_of_nil in He].
        apply elem_of_cons in He as [He|He]; [done|].
        by apply Hblocks in He as (j & _ & [He | He]).
      * apply elem_of_cons in He as [He|He]; [done|]. by apply elem_of_nil in He.
    + intros Hne. exists (select_columns d nums). rewrite !elem_of_app.
      right. left. destruct nums; [done|]. cbn. by right; left.
Qed.

(** The lines of [show_overview] on a loaded table. *)
Lemma show_overview_printed w d :
  df (self w) = Some d →
  printed w (show_overview w)
  = [Print Rule; Print (Lit "DATASET OVERVIEW"); Print Rule;
     Print (FileLine (filename (self w))); Print (ShapeLine (nrows d) (ncols d));
     Print (Lit "--- Column Information ---"); Print (DtypesText (columns d));
     Print (Lit "--- First 5 Rows ---"); Print (FrameText (head_frame d));
     Print (Lit "--- Missing Values ---");
     Print (if 0 <? isnull_total d
            then MissingText
                   (filter (λ m, 0 < m.2)
                      ((λ j, (column_name d j, isnull_sum d j)) <$> seq 0 (ncols d)))
            else Lit "No missing values found");
     Print Blank].
Proof.
  intros Hd. apply printed_spec. unfold show_overview. rewrite Hd.
  cbn [final].
  replace (sum_list ((λ j, (column_name d j, isnull_sum d j)) <$> seq 0 (ncols d)).*2)
    with (isnull_total d).
  2:{ unfold isnull_total. by rewrite <- list_fmap_compose. }
  destruct (0 <? isnull_total d); cbn [print emit output];
    rewrite ?output_prints, ?self_prints; cbn [banner fmap list_fmap];
    rewrite <- ?app_assoc; cbn [app]; done.
Qed.

(** X10. What [show_overview] says about missing values: it prints the
    all-clear exactly when the table has none; otherwise it lists the
    columns that have missing values, each with its count, and no other
    column.  The rows it shows are the first rows of the table, five at
    most. *)
Theorem show_overview_missing w d :
  df (self w) = Some d →
  (Print (Lit "No missing values found") ∈ printed w (show_overview w) ↔
   isnull_total d = 0)
  ∧ (∀ listed, Print (MissingText listed) ∈ printed w (show_overview w) →
     0 < isnull_total d
     ∧ ∀ name k, (name, k) ∈ listed ↔
         0 < k ∧ ∃ j, j < ncols d ∧ name = column_name d j ∧ k = isnull_sum d j)
  ∧ (∀ shown, Print (FrameText shown) ∈ printed w (show_overview w) →
     rows shown = take 5 (rows d) ∧ nrows shown ≤ 5 ∧ columns shown = columns d).
Proof.
  intros Hd. rewrite (show_overview_printed w d Hd).
  split; [|split].
  - destruct (0 <? isnull_total d) eqn:Hmiss.
    + apply Nat.ltb_lt in Hmiss. split; [|lia]. intros He.
      repeat (apply elem_of_cons in He as [He|He]; [done|]).
      by apply elem_of_nil in He.
    + apply Nat.ltb_ge in Hmiss. split; [lia|]. intros _.
      do 10 apply list_elem_of_further. apply list_elem_of_here.
  - intros listed He.
    do 10 (apply elem_of_cons in He as [He|He]; [done|]).
    apply elem_of_cons in He as [He|He].
    2:{ apply elem_of_cons in He as [He|He]; [done|]. by apply elem_of_nil in He. }
    destruct (0 <? isnull_total d) eqn:Hmiss; [|done].
    apply Nat.ltb_lt in Hmiss. split; [done|]. injection He as ->.
    intros name k. rewrite list_elem_of_filter, list_elem_of_fmap. cbn. split.
    + intros (Hk & j & [= -> ->] & Hj%elem_of_seq). split; [done|].
      exists j. split; [lia|done].
    + intros (Hk & j & Hj & -> & ->). split; [done|]. exists j.
      split; [done|]. apply elem_of_seq. lia.
  - intros shown He.
    do 8 (apply elem_of_cons in He as [He|He]; [done|]).
    apply elem_of_cons in He as [He|He].
    + injection He as ->. unfold head_frame, nrows. cbn.
      split; [done|]. split; [|done]. rewrite length_take. lia.
    + apply elem_of_cons in He as [He|He]; [done|].
      apply elem_of_cons in He as [He|He]; [by destruct (0 <? isnull_total d)|].
      apply elem_of_cons in He as [He|He]; [done|]. by apply elem_of_nil in He.
Qed.
End ReportFacts.

(** ** Input lines *)

Section LineFacts.
Context {G : Type} `{!Host G}.
Implicit Types (w : world G) (s : string).







(** X12. Load, then look: after a load that succeeds, [show_overview]
    reports the file name and the shape of the table just read, whatever
    was loaded before. *)
Theorem load_then_overview (path : string) d w :
  (lower (path_suffix path) = ".csv" ∧ read_csv path = inr d)
  ∨ (lower (path_suffix path) ∈ [".xlsx"; ".xls"] ∧ read_excel path = inr d) →
  ∃ w', load_data path w = Return true w'
        ∧ Print (FileLine (Some (path_name path))) ∈ printed w' (show_overview w')
        ∧ Print (ShapeLine (nrows d) (ncols d)) ∈ printed w' (show_overview w')
        ∧ Print (ShapeLine (nrows d) (ncols d)) ∈ printed w (load_data path w).
Proof.
  intros Hok. destruct (load_data_replaces path d w Hok) as (w' & Hrun & Hself & Hout).
  exists w'. split; [done|].
  rewrite (show_overview_printed w' d) by by rewrite Hself.
  rewrite Hself, Hout. cbn [filename]. split; [|split].
  - do 3 apply list_elem_of_further. apply list_elem_of_here.
  - do 4 apply list_elem_of_further. apply list_elem_of_here.
  - apply list_elem_of_further. apply list_elem_of_here.
Qed.
End LineFacts.

(** * The further properties on the example host *)

(** X1 on [export_report] with the sales table loaded. *)
Lemma reporting_keeps_analyzer_witness :
  Export ≠ Clean
  ∧ self (final (run Export (loaded scenario_table))) = self (loaded scenario_table).
Proof.
  assert (Export ≠ Clean) as Hop by discriminate.
  split; [exact Hop|].
  apply (reporting_keeps_analyzer Export (loaded scenario_table) Hop).
Defined.



(** X4 on the table whose notes are all missing. *)
Lemma clean_data_raises_witness :
  df (self (loaded blank_text_table)) = Some blank_text_table
  ∧ ∃ e w', clean_data (loaded blank_text_table) = Raise e w'.
Proof.
  split; [reflexivity|].
  apply (proj2 (clean_data_raises (loaded blank_text_table) blank_text_table
                  eq_refl)).
  split; [vm_compute; lia|]. exists 1, Object.
  split; [reflexivity|]. split; [reflexivity|].
  repeat constructor.
Defined.

(** X5 on the sales table, which has no missing value. *)
Lemma clean_data_complete_idempotent_witness :
  df (self (loaded scenario_table)) = Some scenario_table
  ∧ isnull_total scenario_table = 0
  ∧ self (final (clean_data (final (clean_data (loaded scenario_table)))))
    = self (final (clean_data (loaded scenario_table))).
Proof.
  split; [reflexivity|]. split; [reflexivity|].
  destruct (clean_data_complete_idempotent (loaded scenario_table) scenario_table
              eq_refl eq_refl) as (_ & _ & _ & Hsame & _).
  exact Hsame.
Defined.

(** X6 on the sales table: 3 rows before, 2 after, 1 removed. *)
Lemma clean_data_row_report_witness :
  let w := loaded scenario_table in
  df (self w) = Some scenario_table
  ∧ clean_data w = Return tt (final (clean_data w))
  ∧ ∃ d', df (self (final (clean_data w))) = Some d'
          ∧ nrows d' + count_true (duplicated scenario_table)
            = nrows scenario_table.
Proof.
  intros w.
  assert (clean_data w = Return tt (final (clean_data w))) as Hret
    by (vm_compute; reflexivity).
  split; [reflexivity|]. split; [exact Hret|].
  destruct (clean_data_row_report w (final (clean_data w)) scenario_table
              eq_refl Hret) as (d' & Hd' & _ & Hsum & _).
  exists d'. split; [exact Hd'|exact Hsum].
Defined.

(** X8 on the sales table: a histogram of [Sales], bars for [Region]. *)
Lemma dashboard_panels_witness :
  df (self (loaded scenario_table)) = Some scenario_table
  ∧ ∃ fig, SaveFig "analysis_dashboard.png" fig
             ∈ printed (loaded scenario_table)
                 (create_visualizations (loaded scenario_table))
           ∧ is_Some (hist_panel fig) ∧ is_Some (bar_panel fig).
Proof.
  split; [reflexivity|].
  destruct (dashboard_panels (loaded scenario_table) scenario_table eq_refl)
    as (fig & Hsaved & _ & _ & _ & _ & Hhist & Hbar & _).
  exists fig. split; [exact Hsaved|]. split.
  - apply Hhist. vm_compute. discriminate.
  - apply Hbar. vm_compute. discriminate.
Defined.

(** X9 on the table with gaps. *)
Lemma show_statistics_report_witness :
  df (self (loaded gappy_table)) = Some gappy_table
  ∧ ∀ counts, Print (CountsText counts)
                ∈ printed (loaded gappy_table) (show_statistics (loaded gappy_table)) →
              length counts ≤ 5.
Proof.
  split; [reflexivity|].
  apply (proj1 (proj2 (show_statistics_report (loaded gappy_table) gappy_table
                         eq_refl))).
Defined.

(** X10 on the table with gaps: missing values are listed. *)
Lemma show_overview_missing_witness :
  df (self (loaded gappy_table)) = Some gappy_table
  ∧ (Print (Lit "No missing values found")
       ∈ printed (loaded gappy_table) (show_overview (loaded gappy_table)) ↔
     isnull_total gappy_table = 0).
Proof.
  split; [reflexivity|].
  apply (proj1 (show_overview_missing (loaded gappy_table) gappy_table eq_refl)).
Defined.

(** X12 on [sales.csv]. *)
Lemma load_then_overview_witness :
  (lower (path_suffix "data/sales.csv") = ".csv"
   ∧ read_csv "data/sales.csv" = inl (OtherError "No such file or directory"))
  ∧ lower (path_suffix "sales.csv") = ".csv"
  ∧ read_csv "sales.csv" = inr scenario_table
  ∧ ∃ w', load_data "sales.csv" (loaded tie_table) = Return true w'
          ∧ Print (ShapeLine 3 2) ∈ printed w' (show_overview w').
Proof.
  split; [split; reflexivity|]. split; [reflexivity|]. split; [reflexivity|].
  destruct (load_then_overview "sales.csv" scenario_table (loaded tie_table))
    as (w' & Hrun & _ & Hshape & _).
  - left. split; reflexivity.
  - exists w'. split; [exact Hrun|exact Hshape].
Defined.
